(** * WavCaps: preparation pipeline and metadata loader

    A shallow embedding of [src/aac_datasets/datasets/wavcaps.py].

    The Python module is a sequential batch job over the file system, the
    HuggingFace hub client and an external zip tool.  The embedding keeps that
    shape: pure helpers are functions on strings and lists, fallible code
    returns [Res] (a Python exception or a value), and code with effects runs
    in the monad [M], which threads the file system, the hub's progress-bar
    switch, the log and the list of calls made to the outside world. *)

From stdpp Require Import strings list.
From Stdlib Require Import Ascii ZArith DecimalString.

Local Open Scope Z_scope.

(** ** Python strings *)

Module PyStr.

(** [str.startswith] *)
Definition startswith (s p : string) : bool := String.prefix p s.

(** [str.endswith]: the last [len(suf)] characters of [s] are [suf]. *)
Definition endswith (s suf : string) : bool :=
  let n := String.length s in
  let k := String.length suf in
  (k <=? n)%nat && String.eqb (String.substring (n - k) k s) suf.

(** [sub in s] *)
Fixpoint contains (sub s : string) : bool :=
  String.prefix sub s ||
  match s with
  | EmptyString => false
  | String _ s' => contains sub s'
  end.

(** [x in (a, b, ...)] for a tuple of strings. *)
Definition in_tuple (x : string) (t : list string) : bool :=
  existsb (String.eqb x) t.

(** [sep.join(parts)] *)
Definition join (sep : string) (parts : list string) : string :=
  String.concat sep parts.

(** [str(n)] for a non-negative count and for an [int]. *)
Definition of_nat (n : nat) : string := NilZero.string_of_uint (Nat.to_uint n).
Definition of_Z (z : Z) : string := NilZero.string_of_int (Z.to_int z).

(** The left-to-right scan of [str.replace] for a non-empty [old]: at a
    position where [old] starts, [new] is written and the rest of the
    occurrence is skipped ([skip] counts the characters still to drop). *)
Fixpoint replace_scan (old new : string) (skip : nat) (s : string) : string :=
  match s with
  | EmptyString => EmptyString
  | String c s' =>
      match skip with
      | S k => replace_scan old new k s'
      | O =>
          if String.prefix old s
          then new +:+ replace_scan old new (String.length old - 1) s'
          else String c (replace_scan old new O s')
      end
  end.

(** With an empty [old], Python writes [new] before every character and
    once more at the end. *)
Fixpoint intersperse (new s : string) : string :=
  match s with
  | EmptyString => new
  | String c s' => new +:+ String c (intersperse new s')
  end.

(** [s.replace(old, new)]: every non-overlapping occurrence, leftmost first. *)
Definition replace (old new s : string) : string :=
  match old with
  | EmptyString => intersperse new s
  | _ => replace_scan old new O s
  end.

(** [repr] of a list of strings, for strings that need no escaping (the
    source names and glob patterns logged by the module are such). *)
Definition repr_list (l : list string) : string :=
  "[" +:+ join ", " (map (fun s => "'" +:+ s +:+ "'") l) +:+ "]".

(** [fnmatch.fnmatch(name, pat)] on a POSIX system, for patterns made of
    literal characters, [*] (any run of characters, [/] included) and [?]
    (any one character).  This is the matcher the hub client applies to
    [ignore_patterns]; bracket classes do not occur in this module. *)
Fixpoint fnmatch_pat (pat : string) : string -> bool :=
  match pat with
  | EmptyString => fun name => String.eqb name EmptyString
  | String c pat' =>
      if Ascii.eqb c "*"%char then
        fix star (name : string) : bool :=
          fnmatch_pat pat' name ||
          match name with
          | EmptyString => false
          | String _ name' => star name'
          end
      else if Ascii.eqb c "?"%char then
        fun name =>
          match name with
          | EmptyString => false
          | String _ name' => fnmatch_pat pat' name'
          end
      else
        fun name =>
          match name with
          | EmptyString => false
          | String d name' => Ascii.eqb c d && fnmatch_pat pat' name'
          end
  end.

Definition fnmatch (name pat : string) : bool := fnmatch_pat pat name.

End PyStr.

(** ** [os.path] on POSIX *)

Module osp.

(** [posixpath.join] of two components. *)
Definition join (a b : string) : string :=
  if PyStr.startswith b "/" then b
  else if String.eqb a "" || PyStr.endswith a "/" then a +:+ b
  else a +:+ "/" +:+ b.

Definition join3 (a b c : string) : string := join (join a b) c.

(** [(p[:i], p[i:])] for [i = p.rfind("/") + 1]. *)
Fixpoint split_at_last_sep (p : string) : string * string :=
  match p with
  | EmptyString => (EmptyString, EmptyString)
  | String c p' =>
      let '(h, t) := split_at_last_sep p' in
      match h with
      | EmptyString =>
          if Ascii.eqb c "/"%char then (String c EmptyString, p')
          else (EmptyString, String c t)
      | _ => (String c h, t)
      end
  end.

(** [posixpath.basename] *)
Definition basename (p : string) : string := snd (split_at_last_sep p).

Fixpoint all_sep (s : string) : bool :=
  match s with
  | EmptyString => true
  | String c s' => Ascii.eqb c "/"%char && all_sep s'
  end.

(** [s.rstrip("/")] *)
Fixpoint rstrip_sep (s : string) : string :=
  match s with
  | EmptyString => EmptyString
  | String c s' =>
      match rstrip_sep s' with
      | EmptyString => if Ascii.eqb c "/"%char then EmptyString else String c EmptyString
      | r => String c r
      end
  end.

(** [posixpath.dirname]: the head, without trailing separators unless it
    consists of separators only. *)
Definition dirname (p : string) : string :=
  let head := fst (split_at_last_sep p) in
  if all_sep head then head else rstrip_sep head.

End osp.

(** ** Exceptions, results and Python values *)

#[local] Set Warnings "-register-all".

Inductive exn : Type :=
| RuntimeError (msg : string)
| FileNotFoundError (msg : string)
| FileExistsError (msg : string)
| KeyError (key : string)
| AssertionError
| AttributeError (msg : string)
| TypeError (msg : string)
| ValueError (msg : string)
| OverflowError (msg : string)
| IndexError
| StopIteration
| CalledProcessError (cmd : list string)
| HubError (msg : string).

(** A computation that either raises or returns. *)
Definition Res (A : Type) : Type := exn + A.

Definition res_bind {A B : Type} (r : Res A) (k : A -> Res B) : Res B :=
  match r with
  | inl e => inl e
  | inr a => k a
  end.

Declare Scope res_scope.
Delimit Scope res_scope with res.
Notation "'let*' x := e 'in' k" := (res_bind e (fun x => k))
  (at level 10, x pattern, e at level 100, k at level 200, only parsing) : res_scope.

(** [[f(x) for x in xs]] where [f] may raise: the first exception wins. *)
Fixpoint res_map {A B : Type} (f : A -> Res B) (xs : list A) : Res (list B) :=
  match xs with
  | [] => inr []
  | x :: xs' =>
      (let* y := f x in
       let* ys := res_map f xs' in
       inr (y :: ys))%res
  end.

(** A parsed JSON document, and the values held in the column table.  A
    number written with a fraction or an exponent is kept as mantissa and
    decimal exponent. *)
Inductive pyval : Type :=
| VNone
| VBool (b : bool)
| VInt (z : Z)
| VFloat (mantissa exponent : Z)
| VStr (s : string)
| VList (items : list pyval)
| VDict (items : list (string * pyval)).

(** A Python [dict] with string keys, in insertion order. *)
Module Dict.

Definition t (V : Type) : Type := list (string * V).

(** [d.get(k)] *)
Fixpoint get {V : Type} (k : string) (d : t V) : option V :=
  match d with
  | [] => None
  | (k', v) :: d' => if String.eqb k k' then Some v else get k d'
  end.

(** [k in d] *)
Definition mem {V : Type} (k : string) (d : t V) : bool :=
  match get k d with
  | Some _ => true
  | None => false
  end.

(** [d[k]] *)
Definition item {V : Type} (k : string) (d : t V) : Res V :=
  match get k d with
  | Some v => inr v
  | None => inl (KeyError k)
  end.

(** [d.pop(k, None)], keeping the dictionary only. *)
Definition remove {V : Type} (k : string) (d : t V) : t V :=
  List.filter (fun kv => negb (String.eqb k (fst kv))) d.

(** [d.pop(k)] *)
Definition pop {V : Type} (k : string) (d : t V) : Res (V * t V) :=
  match get k d with
  | Some v => inr (v, remove k d)
  | None => inl (KeyError k)
  end.

(** [d[k] = v]: an existing key keeps its place, a new key goes last. *)
Fixpoint set {V : Type} (k : string) (v : V) (d : t V) : t V :=
  match d with
  | [] => [(k, v)]
  | (k', v') :: d' =>
      if String.eqb k k' then (k', v) :: d' else (k', v') :: set k v d'
  end.

(** [d[k] += vs] for list values. *)
Definition extend {A : Type} (k : string) (vs : list A) (d : t (list A))
  : Res (t (list A)) :=
  match get k d with
  | Some old => inr (set k (old ++ vs) d)
  | None => inl (KeyError k)
  end.

Definition keys {V : Type} (d : t V) : list string := map fst d.
Definition values {V : Type} (d : t V) : list V := map snd d.

(** [{k: f(k) for k in ks}] *)
Definition from_keys {V : Type} (f : string -> V) (ks : list string) : t V :=
  fold_left (fun d k => set k (f k) d) ks [].

End Dict.

(** ** The outside world *)

(** Calls that change the world.  Each is recorded when it is made. *)
Inductive Call : Type :=
| SnapshotDownload
    (repo_id repo_type : string) (revision : option string)
    (resume_download local_files_only : bool) (cache_dir : string)
    (allow_patterns : option (list string)) (ignore_patterns : list string)
    (progress_bars_disabled : bool)
| Remove (path : string)
| Symlink (src dst : string) (target_is_directory : bool)
| CheckCall (cmd : list string) (quiet : bool)
| Makedirs (path : string) (exist_ok : bool)
| ExtractAll (archive path : string) (members : list string)
| Rename (src dst : string)
| SafeRmdir (root : string) (rm_root error_on_non_empty_dir : bool).

(** What the module needs from the operating system, the [zipfile] and
    [json] libraries, the hub client and the interpreter.  [FS] is the state
    of the file system; queries read it, [run_call] gives the effect of a
    call and the exception it raises, if any ([SnapshotDownload] returns the
    snapshot path as well).  [safe_rmdir] is this package's helper from
    [aac_datasets.utils.download], whose source is not part of the module. *)
Class Platform (FS : Type) : Type := {
  os_listdir : FS -> string -> Res (list string);
  osp_exists : FS -> string -> bool;
  osp_islink : FS -> string -> bool;
  osp_isfile : FS -> string -> bool;
  osp_isdir : FS -> string -> bool;
  osp_realpath : FS -> string -> string;
  osp_abspath : FS -> string -> string;
  zip_namelist : FS -> string -> Res (list string);
  json_load : FS -> string -> Res pyval;
  run_call : Call -> FS -> FS * Res string;
  HUGGINGFACE_HUB_CACHE : string;
  py_repr : pyval -> string;
  float_of_str : string -> option pyval;
}.

Inductive Level : Type := DEBUG | INFO | ERROR.

Record LogRecord : Type := mkLog { log_level : Level; log_msg : string }.

Record State (FS : Type) : Type := mkState {
  st_fs : FS;
  st_pbars_disabled : bool;   (* the hub's progress-bar switch *)
  st_log : list LogRecord;    (* records emitted on [pylog], oldest first *)
  st_calls : list Call;       (* calls made so far, oldest first *)
}.
Arguments mkState {FS}.
Arguments st_fs {FS}.
Arguments st_pbars_disabled {FS}.
Arguments st_log {FS}.
Arguments st_calls {FS}.

(** Effectful code: a state transformer that may raise.  The state reached
    when an exception is raised is kept, as the effects before it stay done. *)
Definition M (FS A : Type) : Type := State FS -> State FS * Res A.

Section Monad.
Context {FS : Type} `{Platform FS}.

Definition ret {A : Type} (a : A) : M FS A := fun st => (st, inr a).

Definition raise {A : Type} (e : exn) : M FS A := fun st => (st, inl e).

Definition bind {A B : Type} (m : M FS A) (k : A -> M FS B) : M FS B :=
  fun st =>
    match m st with
    | (st', inl e) => (st', inl e)
    | (st', inr a) => k a st'
    end.

Definition lift {A : Type} (r : Res A) : M FS A := fun st => (st, r).

(** A query of the file system. *)
Definition ask {A : Type} (q : FS -> A) : M FS A :=
  fun st => (st, inr (q (st_fs st))).

Definition query {A : Type} (q : FS -> Res A) : M FS A :=
  fun st => (st, q (st_fs st)).

(** A call to the outside: recorded, then run. *)
Definition call (c : Call) : M FS string :=
  fun st =>
    let '(fs', r) := run_call c (st_fs st) in
    (mkState fs' (st_pbars_disabled st) (st_log st) (st_calls st ++ [c]), r).

Definition emit (lvl : Level) (msg : string) : M FS unit :=
  fun st =>
    (mkState (st_fs st) (st_pbars_disabled st)
       (st_log st ++ [mkLog lvl msg]) (st_calls st), inr tt).

Definition when (b : bool) (m : M FS unit) : M FS unit :=
  if b then m else ret tt.

(** [assert b] *)
Definition py_assert (b : bool) : M FS unit :=
  if b then ret tt else raise AssertionError.

(** The hub's progress-bar switch: [are_progress_bars_disabled],
    [disable_progress_bars] and [enable_progress_bars]. *)
Definition are_progress_bars_disabled : M FS bool :=
  fun st => (st, inr (st_pbars_disabled st)).

Definition set_progress_bars_disabled (b : bool) : M FS unit :=
  fun st => (mkState (st_fs st) b (st_log st) (st_calls st), inr tt).

Definition disable_progress_bars : M FS unit := set_progress_bars_disabled true.
Definition enable_progress_bars : M FS unit := set_progress_bars_disabled false.

End Monad.

Declare Scope m_scope.
Delimit Scope m_scope with M.
Notation "'let*' x := e 'in' k" := (bind e (fun x => k))
  (at level 10, x pattern, e at level 100, k at level 200, only parsing) : m_scope.

Section Monad_loops.
Context {FS : Type} `{Platform FS}.

(** [for x in xs: body(x)] *)
Fixpoint for_each {A : Type} (xs : list A) (body : A -> M FS unit) : M FS unit :=
  match xs with
  | [] => ret tt
  | x :: xs' => (let* _ := body x in for_each xs' body)%M
  end.

End Monad_loops.

(** ** Module constants *)

(** [WavCapsCard.NAME] *)
Definition NAME : string := "wavcaps".

(** [WavCaps.EXPECTED_SIZES] *)
Definition EXPECTED_SIZES : Dict.t Z :=
  [ ("AudioSet_SL", 108317);
    ("BBC_Sound_Effects", 31201);
    ("FreeSound", 262300);
    ("SoundBible", 1320) ].

(** [WavCaps.SOURCES = tuple(EXPECTED_SIZES.keys())] *)
Definition SOURCES : list string := Dict.keys EXPECTED_SIZES.

Definition FORCE_PREPARE_DATA : bool := false.
Definition VERIFY_FILES : bool := false.
Definition CLEAN_ARCHIVES : bool := false.
Definition REPO_ID : string := "cvssp/WavCaps".
Definition RESUME_DL : bool := true.
Definition ZIP_PATH : string := "zip".

(** [_DEFAULT_VALUES] *)
Definition _DEFAULT_VALUES : Dict.t pyval :=
  [ ("author", VStr "");
    ("description", VStr "");
    ("download_link", VStr "");
    ("href", VStr "");
    ("tags", VList []) ].

(** [_WAVCAPS_RAW_COLUMNS]: the keys of [_WavCapsRawItem].  Python builds the
    tuple from a set, so its order is not fixed by the program; the keys are
    listed here as the class declares them. *)
Definition _WAVCAPS_RAW_COLUMNS : list string :=
  [ "caption"; "duration"; "id"; "audio"; "author"; "description";
    "download_link"; "file_name"; "href"; "tags" ].

(** [_WAVCAPS_AUDIO_DNAMES] and [_WAVCAPS_ARCHIVE_DNAMES] *)
Definition _WAVCAPS_AUDIO_DNAMES : Dict.t string :=
  [ ("AudioSet_SL", "AudioSet_SL");
    ("BBC_Sound_Effects", "BBC_Sound_Effects");
    ("FreeSound", "FreeSound");
    ("SoundBible", "SoundBible") ].

Definition _WAVCAPS_ARCHIVE_DNAMES : Dict.t string :=
  [ ("AudioSet_SL", "AudioSet_SL");
    ("BBC_Sound_Effects", "BBC_Sound_Effects");
    ("FreeSound", "FreeSound");
    ("SoundBible", "SoundBible") ].

(** ** Paths and the source filter *)

Definition _get_wavcaps_dpath (root : string) (hf_cache_dir revision : option string)
  : string :=
  osp.join root "WavCaps".

Definition _get_json_dpath (root : string) (hf_cache_dir revision : option string)
  : string :=
  osp.join (_get_wavcaps_dpath root hf_cache_dir revision) "json_files".

Definition _get_archives_dpath (root : string) (hf_cache_dir revision : option string)
  : string :=
  osp.join (_get_wavcaps_dpath root hf_cache_dir revision) "Zip_files".

Definition _get_audio_dpath (root : string) (hf_cache_dir revision : option string)
  : string :=
  osp.join (_get_wavcaps_dpath root hf_cache_dir revision) "Audio".

Definition _get_audio_subset_dpath
  (root : string) (hf_cache_dir revision : option string) (source : string)
  : Res string :=
  (let* dname := Dict.item source _WAVCAPS_AUDIO_DNAMES in
   inr (osp.join (_get_audio_dpath root hf_cache_dir revision) dname))%res.

(** [any(...)] *)
Definition py_any (bs : list bool) : bool := existsb (fun b => b) bs.

Definition _use_source (source subset : string) : bool :=
  py_any
    [ String.eqb source "AudioSet_SL" && PyStr.in_tuple subset ["as"; "as_bbc_sb"];
      String.eqb source "BBC_Sound_Effects" && PyStr.in_tuple subset ["bbc"; "as_bbc_sb"];
      String.eqb source "FreeSound" && PyStr.in_tuple subset ["fsd"];
      String.eqb source "SoundBible" && PyStr.in_tuple subset ["sb"; "as_bbc_sb"] ].

(** The sources a subset leaves out, and the patterns handed to the hub
    client as [ignore_patterns] (lines 393-400). *)
Definition ign_sources (subset : string) : list string :=
  List.filter (fun source => negb (_use_source source subset)) SOURCES.

Definition ign_patterns (subset : string) : list string :=
  flat_map
    (fun source => [ "json_files/" +:+ source +:+ "/*.json"; "Zip_files/*" ])
    (ign_sources subset).

(** The hub client skips a repository file when some ignore pattern matches
    its path. *)
Definition hub_ignores (patterns : list string) (path : string) : bool :=
  existsb (PyStr.fnmatch path) patterns.

(** ** Python values at run time *)

Section Values.
Context {FS : Type} `{Platform FS}.

(** [str(v)], as an f-string formats a value. *)
Definition py_str (v : pyval) : string :=
  match v with
  | VStr s => s
  | VInt z => PyStr.of_Z z
  | VNone => "None"
  | VBool true => "True"
  | VBool false => "False"
  | _ => py_repr v
  end.

(** [float(v)].  An [int] beyond the range of a double (one that rounds to
    [2^1024] or more in magnitude) raises OverflowError. *)
Definition py_float (v : pyval) : Res pyval :=
  match v with
  | VInt z =>
      if Z.abs z <? 2 ^ 1024 - 2 ^ 970 then inr (VFloat z 0)
      else inl (OverflowError "int too large to convert to float")
  | VFloat m e => inr (VFloat m e)
  | VBool b => inr (VFloat (if b then 1 else 0) 0)
  | VStr s =>
      match float_of_str s with
      | Some f => inr f
      | None => inl (ValueError ("could not convert string to float: " +:+ s))
      end
  | _ => inl (TypeError "float() argument must be a string or a real number")
  end.

(** [v[key]] for a string key. *)
Definition py_getitem (v : pyval) (key : string) : Res pyval :=
  match v with
  | VDict d => Dict.item key d
  | _ => inl (TypeError "indices must be integers or slices, not str")
  end.

(** [len(v)] *)
Definition py_len (v : pyval) : Res nat :=
  match v with
  | VList l => inr (length l)
  | VDict d => inr (length d)
  | VStr s => inr (String.length s)
  | _ => inl (TypeError "object has no len()")
  end.

Definition as_record (v : pyval) : Res (Dict.t pyval) :=
  match v with
  | VDict d => inr d
  | _ => inl (AttributeError "object has no attribute 'keys'")
  end.

Definition same_keys (a b : Dict.t pyval) : bool :=
  forallb (fun k => Dict.mem k b) (Dict.keys a) &&
  forallb (fun k => Dict.mem k a) (Dict.keys b).

(** Modelled from the spec: [list_dict_to_dict_list(lst, key_mode="same")] of
    [aac_datasets.utils.collate], whose source is not part of the module.
    It turns a list of records into parallel columns (column name to the
    ordered list of values, one per record); in this mode all records must
    share identical keys, otherwise it raises.  A record holds each key
    once, as [json.load] builds it. *)
Definition list_dict_to_dict_list (lst : pyval) : Res (Dict.t (list pyval)) :=
  match lst with
  | VList items =>
      (let* records := res_map as_record items in
       match records with
       | [] => inr []
       | first :: others =>
           if forallb (same_keys first) others
           then res_map
                  (fun k =>
                     let* column := res_map (Dict.item k) records in
                     inr (k, column))
                  (Dict.keys first)
           else inl (ValueError "Invalid keys for batch.")
       end)%res
  | _ => inl (TypeError "a list of records is expected")
  end.

Definition _load_json (fs : FS) (fpath : string)
  : Res (Dict.t (list pyval) * nat) :=
  (let* data := json_load fs fpath in
   let* data := py_getitem data "data" in
   let* size := py_len data in
   let* data := list_dict_to_dict_list data in
   inr (data, size))%res.

End Values.

(** ** The metadata loader *)

Section Loader.
Context {FS : Type} `{Platform FS}.

Definition table : Type := Dict.t (list pyval).

(** Lines 326-347: the file names of one source, appended to the [fname]
    column. *)
Definition add_fnames (source : string) (json_data raw_data : table) : Res table :=
  (if String.eqb source "AudioSet_SL" then
     let* ids := Dict.item "id" json_data in
     let* fnames :=
       res_map
         (fun id_ =>
            match id_ with
            | VStr s => inr (VStr (PyStr.replace ".wav" ".flac" s))
            | _ => inl (AttributeError "object has no attribute 'replace'")
            end)
         ids in
     Dict.extend "fname" fnames raw_data
   else if String.eqb source "BBC_Sound_Effects" then
     let* ids := Dict.item "id" json_data in
     let fnames := map (fun id_ => VStr (py_str id_ +:+ ".flac")) ids in
     Dict.extend "fname" fnames raw_data
   else if String.eqb source "FreeSound" then
     let* ids := Dict.item "id" json_data in
     let fnames := map (fun id_ => VStr (py_str id_ +:+ ".flac")) ids in
     Dict.extend "fname" fnames raw_data
   else if String.eqb source "SoundBible" then
     let* ids := Dict.item "id" json_data in
     let fnames := map (fun id_ => VStr (py_str id_ +:+ ".flac")) ids in
     Dict.extend "fname" fnames raw_data
   else
     inl (RuntimeError ("Invalid source=" +:+ source +:+ ".")))%res.

(** Lines 349-359: one turn of the loop over [_WAVCAPS_RAW_COLUMNS]. *)
Definition add_column
  (source : string) (size : nat) (json_data raw_data : table) (k : string)
  : Res table :=
  (if Dict.mem k json_data then
     let* column := Dict.item k json_data in
     Dict.extend k column raw_data
   else if Dict.mem k _DEFAULT_VALUES then
     let* default_val := Dict.item k _DEFAULT_VALUES in
     let default_values := repeat default_val size in
     Dict.extend k default_values raw_data
   else if PyStr.in_tuple k ["audio"; "file_name"] then
     inr raw_data
   else
     inl (RuntimeError
            ("Invalid column name " +:+ k +:+ ". (with source=" +:+ source +:+ ")")))%res.

Fixpoint add_columns
  (source : string) (size : nat) (json_data raw_data : table) (ks : list string)
  : Res table :=
  match ks with
  | [] => inr raw_data
  | k :: ks' =>
      (let* raw_data := add_column source size json_data raw_data k in
       add_columns source size json_data raw_data ks')%res
  end.

(** Lines 320-361: the body of the loop over the JSON files. *)
Definition add_source (fs : FS) (raw_data : table) (entry : string * string)
  : Res table :=
  let '(source, json_path) := entry in
  (let* loaded := _load_json fs json_path in
   let '(json_data, size) := loaded in
   let sources := repeat (VStr source) size in
   let json_data := Dict.remove "audio" json_data in
   let* raw_data := add_fnames source json_data raw_data in
   let* raw_data := add_columns source size json_data raw_data _WAVCAPS_RAW_COLUMNS in
   Dict.extend "source" sources raw_data)%res.

Fixpoint add_sources (fs : FS) (raw_data : table) (entries : list (string * string))
  : Res table :=
  match entries with
  | [] => inr raw_data
  | entry :: rest =>
      (let* raw_data := add_source fs raw_data entry in
       add_sources fs raw_data rest)%res
  end.

(** The JSON files of the sources a subset uses (lines 303-317). *)
Definition json_paths_of
  (root : string) (hf_cache_dir revision : option string) (subset : string)
  : list (string * string) :=
  let json_dpath := _get_json_dpath root hf_cache_dir revision in
  let json_paths :=
    [ ("AudioSet_SL", osp.join3 json_dpath "AudioSet_SL" "as_final.json");
      ("BBC_Sound_Effects", osp.join3 json_dpath "BBC_Sound_Effects" "bbc_final.json");
      ("FreeSound", osp.join3 json_dpath "FreeSound" "fsd_final.json");
      ("SoundBible", osp.join3 json_dpath "SoundBible" "sb_final.json") ] in
  List.filter (fun entry => _use_source (fst entry) subset) json_paths.

Definition _load_wavcaps_dataset
  (fs : FS) (root : string) (hf_cache_dir revision : option string) (subset : string)
  : Res table :=
  let json_paths := json_paths_of root hf_cache_dir revision subset in
  let raw_data : table :=
    Dict.from_keys (fun _ => []) (_WAVCAPS_RAW_COLUMNS ++ ["source"; "fname"]) in
  (let* raw_data := add_sources fs raw_data json_paths in
   let* popped := Dict.pop "audio" raw_data in
   let raw_data := snd popped in
   let* popped := Dict.pop "file_name" raw_data in
   let raw_data := snd popped in
   let* popped := Dict.pop "caption" raw_data in
   let raw_data := Dict.set "captions" (fst popped) (snd popped) in
   let* captions := Dict.item "captions" raw_data in
   let raw_data :=
     Dict.set "captions" (map (fun caption => VList [caption]) captions) raw_data in
   let* duration := Dict.item "duration" raw_data in
   let* duration := res_map py_float duration in
   inr (Dict.set "duration" duration raw_data))%res.

End Loader.

(** ** Preparation *)

Section Prepare.
Context {FS : Type} `{Platform FS}.

Definition listdir (dpath : string) : M FS (list string) :=
  query (fun fs => os_listdir fs dpath).

Definition debug (verbose : Z) (msg : string) : M FS unit :=
  when (2 <=? verbose) (emit DEBUG msg).

(** The two messages of the completeness check and its guard. *)
Definition invalid_count_msg (source : string) (expected_size : Z) (found : nat)
  : string :=
  "Invalid number of files for source=" +:+ source +:+ ". (expected "
  +:+ PyStr.of_Z expected_size +:+ " but found " +:+ PyStr.of_nat found +:+ " files)".

Definition not_prepared_msg (root : string) : string :=
  "WavCaps is not prepared in root=" +:+ root +:+ ".".

Definition link_replaced_msg : string :=
  "Target link is not pointing to current snapshot path. It will be automatically replaced.".

Definition invalid_files_msg (invalid expected : nat) : string :=
  "Found " +:+ PyStr.of_nat invalid +:+ "/" +:+ PyStr.of_nat expected
  +:+ " invalid files.".

(** Lines 273-283: the loop of [_is_prepared]. *)
Fixpoint check_sources
  (root : string) (hf_cache_dir revision : option string) (sources : list string)
  : M FS bool :=
  match sources with
  | [] => ret true
  | source :: rest =>
      (let* dpath := lift (_get_audio_subset_dpath root hf_cache_dir revision source) in
       let* audio_fnames := listdir dpath in
       let* expected_size := lift (Dict.item source EXPECTED_SIZES) in
       if negb (expected_size =? Z.of_nat (length audio_fnames)) then
         let* _ :=
           emit ERROR
             (invalid_count_msg source expected_size (length audio_fnames)) in
         ret false
       else check_sources root hf_cache_dir revision rest)%M
  end.

Definition _is_prepared
  (root : string) (hf_cache_dir revision : option string) (subset : string)
  : M FS bool :=
  let sources := List.filter (fun source => _use_source source subset) SOURCES in
  check_sources root hf_cache_dir revision sources.

(** Lines 405-421: the snapshot fetch between the two tests on the
    progress-bar switch.  The hub client reads the switch when it runs, so
    the recorded call carries its position at that moment. *)
Definition fetch_snapshot
  (revision : option string) (hf_cache_dir : string) (resume_dl force : bool)
  (ign_patterns : list string) (verbose : Z)
  : M FS string :=
  (let* pbar_enabled := are_progress_bars_disabled in
   let* _ := when (pbar_enabled && (verbose <=? 0)) disable_progress_bars in
   let* snapshot_dpath :=
     (fun st =>
        call (SnapshotDownload REPO_ID "dataset" revision resume_dl (negb force)
                hf_cache_dir None ign_patterns (st_pbars_disabled st)) st) in
   let* _ := when (pbar_enabled && (verbose <=? 0)) enable_progress_bars in
   ret snapshot_dpath)%M.

(** Lines 431-443: the symbolic link from the dataset root to the snapshot. *)
Definition link_snapshot (snapshot_abs_dpath wavcaps_dpath : string) : M FS unit :=
  (let* present := ask (fun fs => osp_exists fs wavcaps_dpath) in
   if present then
     let* is_link := ask (fun fs => osp_islink fs wavcaps_dpath) in
     if negb is_link then
       raise (RuntimeError "WavCaps root exists but it is not a symlink.")
     else
       let* link_target_abspath :=
         ask (fun fs => osp_abspath fs (osp_realpath fs wavcaps_dpath)) in
       if negb (String.eqb link_target_abspath snapshot_abs_dpath) then
         let* _ := emit ERROR link_replaced_msg in
         let* _ := call (Remove wavcaps_dpath) in
         let* _ := call (Symlink snapshot_abs_dpath wavcaps_dpath true) in
         ret tt
       else ret tt
   else
     let* _ := call (Symlink snapshot_abs_dpath wavcaps_dpath true) in
     ret tt)%M.

(** Lines 505-509 and 528-532: the names found under [src_root]. *)
Definition list_src_root (src_root : string) : M FS (list string) :=
  (let* is_dir := ask (fun fs => osp_isdir fs src_root) in
   if is_dir then listdir src_root else ret [])%M.

(** Lines 546-559: the check made when [verify_files] is set. *)
Definition verify_extracted
  (audio_subset_dpath : string) (flac_subnames : list string) (verbose : Z)
  : M FS unit :=
  (let tgt_fnames_expected := map osp.basename flac_subnames in
   let* tgt_fnames_found := listdir audio_subset_dpath in
   let* _ :=
     debug verbose
       ("Checking " +:+ PyStr.of_nat (length tgt_fnames_expected) +:+ " files...") in
   let tgt_fnames_invalids :=
     List.filter (fun fname => negb (PyStr.in_tuple fname tgt_fnames_found))
       tgt_fnames_expected in
   if (0 <? length tgt_fnames_invalids)%nat then
     raise (FileNotFoundError
              (invalid_files_msg (length tgt_fnames_invalids)
                 (length tgt_fnames_expected)))
   else ret tt)%M.

(** Lines 458-561: the body of the loop over the used sources. *)
Definition prepare_source
  (root : string) (hf_cache_dir revision : option string)
  (verify_files : bool) (zip_path : string) (verbose : Z)
  (item : string * bool)
  : M FS unit :=
  let '(source, is_splitted) := item in
  let archives_dpath := _get_archives_dpath root hf_cache_dir revision in
  (let* archive_dname := lift (Dict.item source _WAVCAPS_ARCHIVE_DNAMES) in
   let main_zip_fpath := osp.join3 archives_dpath archive_dname (source +:+ ".zip") in
   let merged_zip_fpath :=
     if is_splitted
     then osp.join3 archives_dpath archive_dname (source +:+ "_merged.zip")
     else main_zip_fpath in
   let* merged_is_file := ask (fun fs => osp_isfile fs merged_zip_fpath) in
   let* _ :=
     if is_splitted && negb merged_is_file then
       let cmd := [zip_path; "-FF"; main_zip_fpath; "--out"; merged_zip_fpath] in
       let* _ := debug verbose ("Merging ZIP files for " +:+ source +:+ "...") in
       let* _ := debug verbose ("Using command: " +:+ PyStr.join " " cmd) in
       let* _ := call (CheckCall cmd (negb (2 <=? verbose))) in
       ret tt
     else ret tt in
   let* audio_subset_dpath :=
     lift (_get_audio_subset_dpath root hf_cache_dir revision source) in
   let* _ := call (Makedirs audio_subset_dpath true) in
   let* names := query (fun fs => zip_namelist fs merged_zip_fpath) in
   let flac_subnames := List.filter (fun name => PyStr.endswith name ".flac") names in
   let* _ := py_assert (0 <? length flac_subnames)%nat in
   let first_dname := osp.dirname (hd "" flac_subnames) in
   let* _ :=
     py_assert
       (forallb (fun name => String.eqb (osp.dirname name) first_dname) flac_subnames) in
   let src_root := osp.join audio_subset_dpath first_dname in
   let* src_fnames_found := list_src_root src_root in
   let* tgt_fnames_found := listdir audio_subset_dpath in
   let missing_subnames :=
     List.filter
       (fun subname =>
          negb (PyStr.in_tuple (osp.basename subname) src_fnames_found) &&
          negb (PyStr.in_tuple (osp.basename subname) tgt_fnames_found))
       flac_subnames in
   let* _ :=
     debug verbose
       ("Extracting " +:+ PyStr.of_nat (length missing_subnames) +:+ "/"
        +:+ PyStr.of_nat (length flac_subnames) +:+ " audio files from "
        +:+ merged_zip_fpath +:+ "...") in
   let* _ := call (ExtractAll merged_zip_fpath audio_subset_dpath missing_subnames) in
   let* _ := debug verbose "Extraction done." in
   let* src_fnames_found := list_src_root src_root in
   let src_fpaths_to_move :=
     map (fun subname => osp.join audio_subset_dpath subname)
       (List.filter
          (fun subname => PyStr.in_tuple (osp.basename subname) src_fnames_found)
          flac_subnames) in
   let* _ :=
     debug verbose
       ("Moving " +:+ PyStr.of_nat (length src_fpaths_to_move) +:+ " files...") in
   let* _ :=
     for_each src_fpaths_to_move
       (fun src_fpath =>
          let tgt_fpath := osp.join audio_subset_dpath (osp.basename src_fpath) in
          let* _ := call (Rename src_fpath tgt_fpath) in
          ret tt) in
   let* _ := debug verbose "Move done." in
   let* _ :=
     if verify_files
     then verify_extracted audio_subset_dpath flac_subnames verbose
     else ret tt in
   let* _ := call (SafeRmdir audio_subset_dpath false true) in
   ret tt)%M.

(** Lines 445-455: the used sources with their split flag, in order. *)
Definition source_and_splitted (subset : string) : Dict.t bool :=
  List.filter (fun item => _use_source (fst item) subset)
    [ ("AudioSet_SL", true);
      ("BBC_Sound_Effects", true);
      ("FreeSound", true);
      ("SoundBible", false) ].

(** Lines 457-561: the loop over the used sources. *)
Definition extract_sources
  (root : string) (hf_cache_dir revision : option string)
  (verify_files : bool) (zip_path : string) (verbose : Z) (subset : string)
  : M FS unit :=
  for_each (source_and_splitted subset)
    (prepare_source root hf_cache_dir revision verify_files zip_path verbose).

(** Lines 563-576: removal of the archives of the used sources. *)
Definition clean_source_archives
  (root : string) (hf_cache_dir revision : option string) (verbose : Z)
  (source : string)
  : M FS unit :=
  let archives_dpath := _get_archives_dpath root hf_cache_dir revision in
  (let* archive_dname := lift (Dict.item source _WAVCAPS_ARCHIVE_DNAMES) in
   let archive_source_dpath := osp.join archives_dpath archive_dname in
   let* archives_names := listdir archive_source_dpath in
   for_each archives_names
     (fun name =>
        if negb (PyStr.endswith name ".zip") && negb (PyStr.contains ".z" name)
        then ret tt
        else
          let fpath := osp.join archive_source_dpath name in
          let* _ :=
            when (1 <=? verbose)
              (emit INFO
                 ("Removing archive file " +:+ name +:+ " for source=" +:+ source
                  +:+ "...")) in
          let* _ := call (Remove fpath) in
          ret tt))%M.

Definition _prepare_wavcaps_dataset
  (root subset : string) (revision hf_cache_dir : option string)
  (resume_dl force verify_files clean_archives : bool)
  (zip_path : string) (verbose : Z)
  : M FS unit :=
  (let* prepared := _is_prepared root hf_cache_dir revision subset in
   if negb prepared then
     raise (RuntimeError (not_prepared_msg root))
   else
     let hf_cache_dir_ :=
       match hf_cache_dir with
       | None => HUGGINGFACE_HUB_CACHE
       | Some d => d
       end in
     let hf_cache_dir := Some hf_cache_dir_ in
     let* _ := debug verbose ("ign_sources=" +:+ PyStr.repr_list (ign_sources subset)) in
     let* _ := debug verbose ("ign_patterns=" +:+ PyStr.repr_list (ign_patterns subset)) in
     let* snapshot_dpath :=
       fetch_snapshot revision hf_cache_dir_ resume_dl force (ign_patterns subset)
         verbose in
     let* snapshot_abs_dpath := ask (fun fs => osp_abspath fs snapshot_dpath) in
     let wavcaps_dpath := _get_wavcaps_dpath root hf_cache_dir revision in
     let* _ := debug verbose ("snapshot_dpath=" +:+ snapshot_dpath) in
     let* _ := debug verbose ("snapshot_absdpath=" +:+ snapshot_abs_dpath) in
     let* _ := debug verbose ("wavcaps_dpath=" +:+ wavcaps_dpath) in
     let* _ := link_snapshot snapshot_abs_dpath wavcaps_dpath in
     let* _ :=
       extract_sources root hf_cache_dir revision verify_files zip_path verbose
         subset in
     if clean_archives then
       for_each (Dict.keys (source_and_splitted subset))
         (clean_source_archives root hf_cache_dir revision verbose)
     else ret tt)%M.

(** [WavCaps.__init__], up to the call of the base class constructor
    [AACDataset.__init__], which is outside this module: the result is the
    column table handed to it. *)
Definition WavCaps_init
  (root subset : string) (download : bool)
  (hf_cache_dir revision : option string) (verbose : Z)
  : M FS table :=
  (let* _ :=
     when download
       (_prepare_wavcaps_dataset root subset revision hf_cache_dir RESUME_DL
          FORCE_PREPARE_DATA VERIFY_FILES CLEAN_ARCHIVES ZIP_PATH verbose) in
   let* raw_data :=
     query (fun fs => _load_wavcaps_dataset fs root hf_cache_dir revision subset) in
   let* first_column :=
     lift (match Dict.values raw_data with
           | column :: _ => inr column
           | [] => inl StopIteration
           end) in
   let size := length first_column in
   let raw_data := Dict.set "dataset" (repeat (VStr NAME) size) raw_data in
   let raw_data := Dict.set "subset" (repeat (VStr subset) size) raw_data in
   let* fnames := lift (Dict.item "fname" raw_data) in
   let* fpaths :=
     lift
       (res_map
          (fun entry : nat * pyval =>
             let '(i, fname) := entry in
             let* sources := Dict.item "source" raw_data in
             let* source :=
               match nth_error sources i with
               | Some (VStr source) => inr source
               | Some other => inl (KeyError (py_str other))
               | None => inl IndexError
               end in
             let* dpath := _get_audio_subset_dpath root hf_cache_dir revision source in
             match fname with
             | VStr fname => inr (VStr (osp.join dpath fname))
             | _ => inl (TypeError "expected str, bytes or os.PathLike object")
             end)%res
          (combine (seq 0 (length fnames)) fnames)) in
   let raw_data := Dict.set "fpath" fpaths raw_data in
   let raw_data := Dict.set "index" (map (fun i => VInt (Z.of_nat i)) (seq 0 size)) raw_data in
   ret raw_data)%M.

End Prepare.

(** ** An in-memory platform

    A small file system on which the model runs on concrete inputs.  Paths
    are kept as the program writes them. *)

Record SimFS : Type := mkSim {
  sim_dirs : Dict.t (list string);   (* directory -> names listed in it *)
  sim_files : list string;           (* regular files *)
  sim_links : Dict.t string;         (* symbolic link -> resolved target *)
  sim_zips : Dict.t (list string);   (* readable archive -> member names *)
  sim_json : Dict.t pyval;           (* JSON file -> parsed document *)
  sim_hub : Res string;              (* what the snapshot fetch answers *)
}.

Module Sim.

Definition is_dir (fs : SimFS) (p : string) : bool := Dict.mem p (sim_dirs fs).

Definition is_file (fs : SimFS) (p : string) : bool := PyStr.in_tuple p (sim_files fs).

Definition is_link (fs : SimFS) (p : string) : bool := Dict.mem p (sim_links fs).

Definition realpath (fs : SimFS) (p : string) : string :=
  default p (Dict.get p (sim_links fs)).

Definition exists_ (fs : SimFS) (p : string) : bool :=
  is_dir fs (realpath fs p) || is_file fs (realpath fs p).

Definition listdir (fs : SimFS) (p : string) : Res (list string) :=
  match Dict.get p (sim_dirs fs) with
  | Some names => inr names
  | None => inl (FileNotFoundError p)
  end.

Definition with_dirs (fs : SimFS) (dirs : Dict.t (list string)) : SimFS :=
  mkSim dirs (sim_files fs) (sim_links fs) (sim_zips fs) (sim_json fs) (sim_hub fs).

Definition with_files (fs : SimFS) (files : list string) : SimFS :=
  mkSim (sim_dirs fs) files (sim_links fs) (sim_zips fs) (sim_json fs) (sim_hub fs).

Definition with_links (fs : SimFS) (links : Dict.t string) : SimFS :=
  mkSim (sim_dirs fs) (sim_files fs) links (sim_zips fs) (sim_json fs) (sim_hub fs).

Definition with_zips (fs : SimFS) (zips : Dict.t (list string)) : SimFS :=
  mkSim (sim_dirs fs) (sim_files fs) (sim_links fs) zips (sim_json fs) (sim_hub fs).

(** A name enters the listing of a directory, which is created if needed. *)
Definition add_name (dir name : string) (fs : SimFS) : SimFS :=
  let names := default [] (Dict.get dir (sim_dirs fs)) in
  if PyStr.in_tuple name names then with_dirs fs (Dict.set dir names (sim_dirs fs))
  else with_dirs fs (Dict.set dir (names ++ [name]) (sim_dirs fs)).

Definition drop_name (dir name : string) (fs : SimFS) : SimFS :=
  match Dict.get dir (sim_dirs fs) with
  | Some names =>
      with_dirs fs
        (Dict.set dir (List.filter (fun n => negb (String.eqb n name)) names)
           (sim_dirs fs))
  | None => fs
  end.

Definition add_file (p : string) (fs : SimFS) : SimFS :=
  add_name (osp.dirname p) (osp.basename p)
    (with_files fs
       (if PyStr.in_tuple p (sim_files fs) then sim_files fs else sim_files fs ++ [p])).

Definition drop_file (p : string) (fs : SimFS) : SimFS :=
  drop_name (osp.dirname p) (osp.basename p)
    (with_files fs (List.filter (fun f => negb (String.eqb f p)) (sim_files fs))).

Definition ok (fs : SimFS) : SimFS * Res string := (fs, inr "").

(** The path under which [extractall] writes a member: the member name made
    relative, as [zipfile] does (leading separators are dropped). *)
Fixpoint member_path (member : string) : string :=
  match member with
  | String c rest => if Ascii.eqb c "/"%char then member_path rest else member
  | EmptyString => EmptyString
  end.

Definition run (c : Call) (fs : SimFS) : SimFS * Res string :=
  match c with
  | SnapshotDownload _ _ _ _ _ _ _ _ _ => (fs, sim_hub fs)
  | Remove p =>
      if is_link fs p then ok (with_links fs (Dict.remove p (sim_links fs)))
      else if is_file fs p then ok (drop_file p fs)
      else (fs, inl (FileNotFoundError p))
  | Symlink src dst _ =>
      if is_link fs dst || is_dir fs dst || is_file fs dst
      then (fs, inl (FileExistsError dst))
      else ok (with_links fs (Dict.set dst src (sim_links fs)))
  | CheckCall cmd _ =>
      match cmd with
      | [_; _; main; _; merged] =>
          match Dict.get main (sim_zips fs) with
          | Some names =>
              ok (with_zips (add_file merged fs) (Dict.set merged names (sim_zips fs)))
          | None => (fs, inl (CalledProcessError cmd))
          end
      | _ => (fs, inl (CalledProcessError cmd))
      end
  | Makedirs p exist_ok =>
      if is_dir fs p then
        if exist_ok then ok fs else (fs, inl (FileExistsError p))
      else if is_file fs p then (fs, inl (FileExistsError p))
      else ok (with_dirs fs (Dict.set p [] (sim_dirs fs)))
  | ExtractAll _ path members =>
      ok (fold_left
            (fun fs member => add_file (osp.join path (member_path member)) fs)
            members fs)
  | Rename src dst =>
      if is_file fs src then ok (add_file dst (drop_file src fs))
      else (fs, inl (FileNotFoundError src))
  | SafeRmdir root _ error_on_non_empty_dir =>
      let below :=
        List.filter (fun entry => PyStr.startswith (fst entry) (root +:+ "/"))
          (sim_dirs fs) in
      if error_on_non_empty_dir &&
         negb (forallb (fun entry => (length (snd entry) =? 0)%nat) below)
      then (fs, inl (RuntimeError "Cannot remove non-empty directory."))
      else
        ok (with_dirs fs
              (List.filter
                 (fun entry => negb (PyStr.startswith (fst entry) (root +:+ "/")))
                 (sim_dirs fs)))
  end.

Definition abspath (fs : SimFS) (p : string) : string :=
  if PyStr.startswith p "/" then p else "/cwd/" +:+ p.

Definition load (fs : SimFS) (p : string) : Res pyval :=
  match Dict.get p (sim_json fs) with
  | Some doc => inr doc
  | None => inl (FileNotFoundError p)
  end.

Definition namelist (fs : SimFS) (p : string) : Res (list string) :=
  match Dict.get p (sim_zips fs) with
  | Some names => inr names
  | None => inl (FileNotFoundError p)
  end.

End Sim.

#[export] Instance sim_platform : Platform SimFS := {|
  os_listdir := Sim.listdir;
  osp_exists := Sim.exists_;
  osp_islink := Sim.is_link;
  osp_isfile := Sim.is_file;
  osp_isdir := Sim.is_dir;
  osp_realpath := Sim.realpath;
  osp_abspath := Sim.abspath;
  zip_namelist := Sim.namelist;
  json_load := Sim.load;
  run_call := Sim.run;
  HUGGINGFACE_HUB_CACHE := "/home/user/.cache/huggingface/hub";
  py_repr := fun _ => "<object>";
  float_of_str := fun _ => None;
|}.

(** An empty file system whose hub answers with [hub], and the initial state
    of a run on a file system. *)
Definition sim_empty (hub : Res string) : SimFS := mkSim [] [] [] [] [] hub.

Definition start {FS : Type} (fs : FS) (pbars_disabled : bool) : State FS :=
  mkState fs pbars_disabled [] [].

(** ** Vocabulary of the statements *)

Section Vocabulary.
Context {FS : Type} `{Platform FS}.

(** A source the subset uses. *)
Definition active (subset source : string) : Prop :=
  In source SOURCES /\ _use_source source subset = true.

(** The number of names listed in the audio directory of a source. *)
Definition listed_count
  (fs : FS) (root : string) (hf_cache_dir revision : option string) (source : string)
  : Res nat :=
  (let* dpath := _get_audio_subset_dpath root hf_cache_dir revision source in
   let* names := os_listdir fs dpath in
   inr (length names))%res.

(** The audio directory of a source lists as many names as declared. *)
Definition count_ok
  (fs : FS) (root : string) (hf_cache_dir revision : option string) (source : string)
  : Prop :=
  exists n,
    listed_count fs root hf_cache_dir revision source = inr n /\
    Dict.get source EXPECTED_SIZES = Some (Z.of_nat n).


(** A state with one more log record. *)
Definition logged (st : State FS) (lvl : Level) (msg : string) : State FS :=
  mkState (st_fs st) (st_pbars_disabled st) (st_log st ++ [mkLog lvl msg]) (st_calls st).

(** All calls a program makes, from any state, satisfy [P]. *)
Definition only_calls {A : Type} (P : Call -> Prop) (m : M FS A) : Prop :=
  forall st, exists more,
    st_calls (fst (m st)) = st_calls st ++ more /\ Forall P more.

(** Every column of a table is empty, or has a given length. *)
Definition all_empty (t : table) : Prop :=
  Forall (fun column => snd column = []) t.

Definition columns_have_length (n : nat) (t : table) : Prop :=
  Forall (fun column => length (snd column) = n) t.

End Vocabulary.

(** ** Concrete file systems *)



(** A root on which two files of AudioSet_SL are on disk and the audio
    directories of BBC_Sound_Effects and SoundBible are still empty. *)
Definition two_files_root : SimFS :=
  mkSim [ ("/cache/snap", ["Audio"; "Zip_files"; "json_files"]);
          ("./WavCaps/Audio/AudioSet_SL", ["a.flac"; "b.flac"]);
          ("./WavCaps/Audio/BBC_Sound_Effects", []);
          ("./WavCaps/Audio/SoundBible", []) ]
        [] [ ("./WavCaps", "/cache/snap") ] [] [] (inr "/cache/snap").



(** ** Verification of the extracted files *)


(** A SoundBible root with the declared 1320 files, of which the archive
    knows one only. *)
Definition surplus_root : SimFS :=
  mkSim [ ("/cache/snap", ["Audio"; "Zip_files"; "json_files"]);
          ("./WavCaps/Audio/SoundBible", "a.flac" :: repeat "x.flac" 1319) ]
        [ "./WavCaps/Zip_files/SoundBible/SoundBible.zip" ]
        [ ("./WavCaps", "/cache/snap") ]
        [ ("./WavCaps/Zip_files/SoundBible/SoundBible.zip", ["SoundBible_flac/a.flac"]) ]
        [] (inr "/cache/snap").

(** ** Re-running on an extracted root *)

Section Rerun.
Context {FS : Type} `{Platform FS}.


(** The archive the loop opens for a source (lines 459-468). *)
Definition merged_archive_of
  (root : string) (hf_cache_dir revision : option string) (item : string * bool)
  : Res string :=
  let '(source, is_splitted) := item in
  let archives_dpath := _get_archives_dpath root hf_cache_dir revision in
  (let* archive_dname := Dict.item source _WAVCAPS_ARCHIVE_DNAMES in
   let main_zip_fpath := osp.join3 archives_dpath archive_dname (source +:+ ".zip") in
   inr (if is_splitted
        then osp.join3 archives_dpath archive_dname (source +:+ "_merged.zip")
        else main_zip_fpath))%res.



End Rerun.


(** ** Record counts *)

Section Counts.
Context {FS : Type} `{Platform FS}.

(** The number of records of a JSON file, as [_load_json] reports it. *)
Definition record_count (fs : FS) (fpath : string) : nat :=
  match _load_json fs fpath with
  | inr loaded => snd loaded
  | inl _ => 0%nat
  end.

(** The sum of the record counts of the JSON files of the used sources. *)
Definition total_records
  (fs : FS) (root : string) (hf_cache_dir revision : option string) (subset : string)
  : nat :=
  list_sum
    (map (fun entry => record_count fs (snd entry))
       (json_paths_of root hf_cache_dir revision subset)).

(** How often a column name occurs in a list of column names. *)
Definition hits (k : string) (ks : list string) : nat :=
  length (List.filter (String.eqb k) ks).

(** The length of a column of a table (0 for a missing column). *)
Definition column_length (k : string) (t : table) : nat :=
  length (default [] (Dict.get k t)).

End Counts.

(** A root with the metadata of the three sources of "as_bbc_sb": two
    AudioSet_SL records that carry the mandatory fields only, one BBC record
    and one SoundBible record with some of the optional fields. *)
Definition metadata_root : SimFS :=
  mkSim [] [] [] []
    [ ("./WavCaps/json_files/AudioSet_SL/as_final.json",
         VDict
           [ ("num_captions_per_audio", VInt 1);
             ("data",
              VList
                [ VDict [ ("id", VStr "Y---1_cCGK4M.wav");
                          ("caption", VStr "Rain falls on a roof.");
                          ("audio", VStr "wav_path");
                          ("duration", VFloat 100 (-1)) ];
                  VDict [ ("id", VStr "Y---2_BBVHAA.wav");
                          ("caption", VStr "A dog barks twice.");
                          ("audio", VStr "wav_path");
                          ("duration", VInt 10) ] ]) ]);
      ("./WavCaps/json_files/BBC_Sound_Effects/bbc_final.json",
         VDict
           [ ("data",
              VList
                [ VDict [ ("description", VStr "Timber and wood, rip saw.");
                          ("category", VStr "['Nature']");
                          ("caption", VStr "Someone is sawing wood.");
                          ("id", VStr "NHU05104110");
                          ("duration", VFloat 1193 (-1));
                          ("audio", VStr "wav_path");
                          ("download_link", VStr "https://sound-effects.example/1.zip") ] ]) ]);
      ("./WavCaps/json_files/SoundBible/sb_final.json",
         VDict
           [ ("data",
              VList
                [ VDict [ ("title", VStr "Airplane Landing Airport");
                          ("description", VStr "Large commercial airplane landing.");
                          ("author", VStr "Daniel Simion");
                          ("href", VStr "2219-Airplane-Landing-Airport.html");
                          ("caption", VStr "An airplane is landing.");
                          ("id", VStr "2219");
                          ("duration", VFloat 1428 (-2));
                          ("audio", VStr "wav_path");
                          ("download_link", VStr "http://soundbible.example/2219.zip") ] ]) ]) ]
    (inr "/cache/snap").

(** ** Vocabulary for the preparation steps *)

Section Pipeline_vocabulary.
Context {FS : Type} `{Platform FS}.

(** The pairs (source, subset) for which the source is used. *)
Definition USED_BY : list (string * string) :=
  [ ("AudioSet_SL", "as"); ("AudioSet_SL", "as_bbc_sb");
    ("BBC_Sound_Effects", "bbc"); ("BBC_Sound_Effects", "as_bbc_sb");
    ("FreeSound", "fsd");
    ("SoundBible", "sb"); ("SoundBible", "as_bbc_sb") ].

(** The sources a subset uses, in the order of [WavCaps.SOURCES]. *)
Definition used_sources (subset : string) : list string :=
  List.filter (fun source => _use_source source subset) SOURCES.

(** A call of the merge tool for a split source: the command line of lines
    471-477 and the redirection of lines 482-487. *)
Definition merge_call
  (root : string) (hf_cache_dir revision : option string)
  (zip_path : string) (verbose : Z) (item : string * bool) (c : Call) : Prop :=
  match c with
  | CheckCall cmd quiet =>
      snd item = true /\
      quiet = negb (2 <=? verbose) /\
      exists main merged,
        merged_archive_of root hf_cache_dir revision (fst item, false) = inr main /\
        merged_archive_of root hf_cache_dir revision (fst item, true) = inr merged /\
        cmd = [zip_path; "-FF"; main; "--out"; merged]
  | _ => True
  end.



(** A name the clean-up step takes for an archive (line 571). *)
Definition archive_name (name : string) : bool :=
  PyStr.endswith name ".zip" || PyStr.contains ".z" name.



(** The flac entries of an archive lie in one subdirectory (lines 497-502). *)
Definition single_subdirectory (names : list string) : bool :=
  let flac_subnames := List.filter (fun name => PyStr.endswith name ".flac") names in
  (0 <? length flac_subnames)%nat &&
  forallb
    (fun name => String.eqb (osp.dirname name) (osp.dirname (hd "" flac_subnames)))
    flac_subnames.

End Pipeline_vocabulary.

(** ** Vocabulary for the loaded table *)

Section Table_vocabulary.
Context {FS : Type} `{Platform FS}.

(** A column of a table (empty for a missing column). *)
Definition column (k : string) (t : table) : list pyval :=
  default [] (Dict.get k t).

(** What the records of one source give for column [k] (lines 350-355):
    their values when they carry the key, the declared default once per
    record when they do not. *)
Definition source_column (json_data : table) (size : nat) (k : string) : list pyval :=
  match Dict.get k json_data with
  | Some values => values
  | None =>
      match Dict.get k _DEFAULT_VALUES with
      | Some default_val => repeat default_val size
      | None => []
      end
  end.

(** The same for the JSON file at [fpath]. *)
Definition json_column (fs : FS) (fpath k : string) : list pyval :=
  match _load_json fs fpath with
  | inr (json_data, size) => source_column json_data size k
  | inl _ => []
  end.

(** Column [k] over the JSON files of the sources a subset uses, in order. *)
Definition json_columns
  (fs : FS) (root : string) (hf_cache_dir revision : option string)
  (subset k : string) : list pyval :=
  concat
    (map (fun entry => json_column fs (snd entry) k)
       (json_paths_of root hf_cache_dir revision subset)).

(** The source column: the name of each source, once per record. *)
Definition source_names
  (fs : FS) (root : string) (hf_cache_dir revision : option string)
  (subset : string) : list pyval :=
  concat
    (map (fun entry => repeat (VStr (fst entry)) (record_count fs (snd entry)))
       (json_paths_of root hf_cache_dir revision subset)).

(** The file name built from an identifier, by the rule of its source
    (lines 326-344). *)
Definition fname_built_from (source : string) (id_ fname : pyval) : Prop :=
  if String.eqb source "AudioSet_SL"
  then exists s, id_ = VStr s /\ fname = VStr (PyStr.replace ".wav" ".flac" s)
  else fname = VStr (py_str id_ +:+ ".flac").

(** A row of the table: its source, its identifier and its file name. *)
Definition fname_row (row : pyval * pyval) (fname : pyval) : Prop :=
  exists source, fst row = VStr source /\ fname_built_from source (snd row) fname.

(** A row of the table built by [WavCaps.__init__]: the path of the audio
    file is the file name joined to the audio directory of the source
    (lines 182-190). *)
Definition fpath_row
  (root : string) (hf_cache_dir revision : option string)
  (row : pyval * pyval) (fpath : pyval) : Prop :=
  exists source fname dpath,
    row = (VStr source, VStr fname) /\
    _get_audio_subset_dpath root hf_cache_dir revision source = inr dpath /\
    fpath = VStr (osp.join dpath fname).

End Table_vocabulary.

(** A root whose SoundBible records carry no duration, and a root on which
    the archive of SoundBible holds no flac entry. *)
Definition no_duration_root : SimFS :=
  mkSim [] [] [] []
    [ ("./WavCaps/json_files/SoundBible/sb_final.json",
         VDict
           [ ("data",
              VList
                [ VDict [ ("id", VStr "2219");
                          ("caption", VStr "An airplane is landing.") ] ]) ]) ]
    (inr "/cache/snap").

Definition no_flac_root : SimFS :=
  mkSim [ ("/cache/snap", ["Audio"; "Zip_files"; "json_files"]);
          ("./WavCaps/Audio/SoundBible", []) ]
        [ "./WavCaps/Zip_files/SoundBible/SoundBible.zip" ]
        [ ("./WavCaps", "/cache/snap") ]
        [ ("./WavCaps/Zip_files/SoundBible/SoundBible.zip", ["readme.txt"]) ]
        [] (inr "/cache/snap").

(** A root without the dataset link and without any archive. *)
Definition unlinked_root : SimFS :=
  mkSim [ ("/cache/snap", ["Audio"; "Zip_files"; "json_files"]) ]
        [] [] [] [] (inr "/cache/snap").

(** The metadata of SoundBible alone, as [metadata_root] has it. *)
Definition soundbible_metadata_root : SimFS :=
  mkSim [] [] [] []
    (List.filter
       (fun entry =>
          String.eqb (fst entry) "./WavCaps/json_files/SoundBible/sb_final.json")
       (sim_json metadata_root))
    (inr "/cache/snap").

(** ** The phases of the preparation routine *)

Section Phases.
Context {FS : Type} `{Platform FS}.

(** Lines 386-443: the guard, the snapshot fetch and the link from the
    dataset root to the snapshot. *)
Definition fetch_and_link
  (root subset : string) (revision hf_cache_dir : option string)
  (resume_dl force : bool) (verbose : Z)
  : M FS unit :=
  (let* prepared := _is_prepared root hf_cache_dir revision subset in
   if negb prepared then
     raise (RuntimeError (not_prepared_msg root))
   else
     let hf_cache_dir_ :=
       match hf_cache_dir with
       | None => HUGGINGFACE_HUB_CACHE
       | Some d => d
       end in
     let hf_cache_dir := Some hf_cache_dir_ in
     let* _ := debug verbose ("ign_sources=" +:+ PyStr.repr_list (ign_sources subset)) in
     let* _ := debug verbose ("ign_patterns=" +:+ PyStr.repr_list (ign_patterns subset)) in
     let* snapshot_dpath :=
       fetch_snapshot revision hf_cache_dir_ resume_dl force (ign_patterns subset)
         verbose in
     let* snapshot_abs_dpath := ask (fun fs => osp_abspath fs snapshot_dpath) in
     let wavcaps_dpath := _get_wavcaps_dpath root hf_cache_dir revision in
     let* _ := debug verbose ("snapshot_dpath=" +:+ snapshot_dpath) in
     let* _ := debug verbose ("snapshot_absdpath=" +:+ snapshot_abs_dpath) in
     let* _ := debug verbose ("wavcaps_dpath=" +:+ wavcaps_dpath) in
     link_snapshot snapshot_abs_dpath wavcaps_dpath)%M.

(** Lines 445-576: the loop over the used sources and the clean-up, with
    the cache directory as line 390 has set it. *)
Definition extract_and_clean
  (root : string) (hf_cache_dir revision : option string)
  (verify_files clean_archives : bool) (zip_path : string) (verbose : Z)
  (subset : string)
  : M FS unit :=
  (let* _ :=
     extract_sources root hf_cache_dir revision verify_files zip_path verbose subset in
   if clean_archives then
     for_each (Dict.keys (source_and_splitted subset))
       (clean_source_archives root hf_cache_dir revision verbose)
   else ret tt)%M.

(** Lines 459-544: the body of the loop up to the verification: merge,
    extraction and moves.  It returns the audio directory of the source and
    the flac entries of its archive, which lines 546-561 use. *)
Definition extract_and_move
  (root : string) (hf_cache_dir revision : option string)
  (zip_path : string) (verbose : Z) (item : string * bool)
  : M FS (string * list string) :=
  let '(source, is_splitted) := item in
  let archives_dpath := _get_archives_dpath root hf_cache_dir revision in
  (let* archive_dname := lift (Dict.item source _WAVCAPS_ARCHIVE_DNAMES) in
   let main_zip_fpath := osp.join3 archives_dpath archive_dname (source +:+ ".zip") in
   let merged_zip_fpath :=
     if is_splitted
     then osp.join3 archives_dpath archive_dname (source +:+ "_merged.zip")
     else main_zip_fpath in
   let* merged_is_file := ask (fun fs => osp_isfile fs merged_zip_fpath) in
   let* _ :=
     if is_splitted && negb merged_is_file then
       let cmd := [zip_path; "-FF"; main_zip_fpath; "--out"; merged_zip_fpath] in
       let* _ := debug verbose ("Merging ZIP files for " +:+ source +:+ "...") in
       let* _ := debug verbose ("Using command: " +:+ PyStr.join " " cmd) in
       let* _ := call (CheckCall cmd (negb (2 <=? verbose))) in
       ret tt
     else ret tt in
   let* audio_subset_dpath :=
     lift (_get_audio_subset_dpath root hf_cache_dir revision source) in
   let* _ := call (Makedirs audio_subset_dpath true) in
   let* names := query (fun fs => zip_namelist fs merged_zip_fpath) in
   let flac_subnames := List.filter (fun name => PyStr.endswith name ".flac") names in
   let* _ := py_assert (0 <? length flac_subnames)%nat in
   let first_dname := osp.dirname (hd "" flac_subnames) in
   let* _ :=
     py_assert
       (forallb (fun name => String.eqb (osp.dirname name) first_dname) flac_subnames) in
   let src_root := osp.join audio_subset_dpath first_dname in
   let* src_fnames_found := list_src_root src_root in
   let* tgt_fnames_found := listdir audio_subset_dpath in
   let missing_subnames :=
     List.filter
       (fun subname =>
          negb (PyStr.in_tuple (osp.basename subname) src_fnames_found) &&
          negb (PyStr.in_tuple (osp.basename subname) tgt_fnames_found))
       flac_subnames in
   let* _ :=
     debug verbose
       ("Extracting " +:+ PyStr.of_nat (length missing_subnames) +:+ "/"
        +:+ PyStr.of_nat (length flac_subnames) +:+ " audio files from "
        +:+ merged_zip_fpath +:+ "...") in
   let* _ := call (ExtractAll merged_zip_fpath audio_subset_dpath missing_subnames) in
   let* _ := debug verbose "Extraction done." in
   let* src_fnames_found := list_src_root src_root in
   let src_fpaths_to_move :=
     map (fun subname => osp.join audio_subset_dpath subname)
       (List.filter
          (fun subname => PyStr.in_tuple (osp.basename subname) src_fnames_found)
          flac_subnames) in
   let* _ :=
     debug verbose
       ("Moving " +:+ PyStr.of_nat (length src_fpaths_to_move) +:+ " files...") in
   let* _ :=
     for_each src_fpaths_to_move
       (fun src_fpath =>
          let tgt_fpath := osp.join audio_subset_dpath (osp.basename src_fpath) in
          let* _ := call (Rename src_fpath tgt_fpath) in
          ret tt) in
   let* _ := debug verbose "Move done." in
   ret (audio_subset_dpath, flac_subnames))%M.

(** Lines 546-561: the verification, when asked for, and the removal of the
    emptied directories. *)
Definition verify_and_tidy
  (verify_files : bool) (verbose : Z) (extracted : string * list string)
  : M FS unit :=
  let '(audio_subset_dpath, flac_subnames) := extracted in
  (let* _ :=
     if verify_files
     then verify_extracted audio_subset_dpath flac_subnames verbose
     else ret tt in
   let* _ := call (SafeRmdir audio_subset_dpath false true) in
   ret tt)%M.

(** The calls the clean-up makes for the names listed in the archive
    directory [dir]: one removal per name that line 571 lets through, in the
    order of the listing. *)
Definition archive_removals (dir : string) (names : list string) : list Call :=
  map (fun name => Remove (osp.join dir name)) (List.filter archive_name names).

End Phases.

(** ** More file systems *)

(** [surplus_root] with the link at the root pointing at an older snapshot. *)
Definition stale_surplus_root : SimFS :=
  mkSim (("/cache/old", ["Audio"]) :: sim_dirs surplus_root)
        (sim_files surplus_root)
        [ ("./WavCaps", "/cache/old") ]
        (sim_zips surplus_root) [] (inr "/cache/snap").

(** [surplus_root] with a hub cache that is itself reached through a
    symbolic link: the hub answers "/home/cache/snap", which resolves to
    "/data/cache/snap", and so does the link at the root. *)
Definition symlinked_cache_root : SimFS :=
  mkSim (("/data/cache/snap", ["Audio"; "Zip_files"; "json_files"])
           :: sim_dirs surplus_root)
        (sim_files surplus_root)
        [ ("./WavCaps", "/data/cache/snap");
          ("/home/cache/snap", "/data/cache/snap") ]
        (sim_zips surplus_root) [] (inr "/home/cache/snap").

(** A root that is a link to a snapshot that is gone. *)
Definition dangling_link_root : SimFS :=
  mkSim [ ("/cache/snap", ["Audio"; "Zip_files"; "json_files"]) ]
        [] [ ("./WavCaps", "/cache/gone") ] [] [] (inr "/cache/snap").

(** A root on which BBC_Sound_Effects, a split source, is extracted: the
    declared 31201 names are listed, the merged archive is on disk and its
    one flac entry has its file. *)
Definition extracted_bbc_root : SimFS :=
  mkSim [ ("/cache/snap", ["Audio"; "Zip_files"; "json_files"]);
          ("./WavCaps/Audio/BBC_Sound_Effects",
           "c.flac" :: repeat "x.flac" (Z.to_nat 31200)) ]
        [ "./WavCaps/Zip_files/BBC_Sound_Effects/BBC_Sound_Effects_merged.zip" ]
        [ ("./WavCaps", "/cache/snap") ]
        [ ("./WavCaps/Zip_files/BBC_Sound_Effects/BBC_Sound_Effects_merged.zip",
           ["BBC_Sound_Effects_flac/c.flac"]) ]
        [] (inr "/cache/snap").

(** A SoundBible root whose archive names its one flac entry with a leading
    separator; the 1320 names on disk do not include it. *)
Definition absolute_member_root : SimFS :=
  mkSim [ ("/cache/snap", ["Audio"; "Zip_files"; "json_files"]);
          ("./WavCaps/Audio/SoundBible", repeat "x.flac" 1320) ]
        [ "./WavCaps/Zip_files/SoundBible/SoundBible.zip" ]
        [ ("./WavCaps", "/cache/snap") ]
        [ ("./WavCaps/Zip_files/SoundBible/SoundBible.zip",
           ["/SoundBible_flac/a.flac"]) ]
        [] (inr "/cache/snap").

(** * Properties *)

(** ** Strings *)

Lemma append_String (c : ascii) (s t : string) :
  String c s +:+ t = String c (s +:+ t).
Proof. reflexivity. Qed.

Lemma append_Empty (t : string) : "" +:+ t = t.
Proof. reflexivity. Qed.

Ltac push_append := rewrite ?append_String, ?append_Empty.

Lemma in_tuple_In (x : string) (t : list string) :
  PyStr.in_tuple x t = true <-> In x t.
Proof.
  unfold PyStr.in_tuple. rewrite existsb_exists. split.
  - intros (y & Hy & Heq). apply String.eqb_eq in Heq. now subst.
  - intros Hin. exists x. split; [assumption | apply String.eqb_refl].
Qed.

Lemma in_tuple_notin (x : string) (t : list string) :
  ~ In x t -> PyStr.in_tuple x t = false.
Proof.
  intros Hn. destruct (PyStr.in_tuple x t) eqn:E; [| reflexivity].
  apply in_tuple_In in E. contradiction.
Qed.

(** [*] alone matches every name. *)
Lemma fnmatch_star (name : string) : PyStr.fnmatch_pat "*" name = true.
Proof.
  induction name as [| c name IH]; [reflexivity |].
  simpl in *. exact IH.
Qed.

Lemma fnmatch_zip_files (rest : string) :
  PyStr.fnmatch ("Zip_files/" +:+ rest) "Zip_files/*" = true.
Proof.
  unfold PyStr.fnmatch. push_append.
  change (PyStr.fnmatch_pat "*" rest = true). apply fnmatch_star.
Qed.

(** ** The source filter *)

(** Whatever the subset, at least one source is left out. *)
Lemma ign_sources_nonempty (subset : string) :
  exists source, In source (ign_sources subset).
Proof.
  unfold ign_sources.
  destruct (_use_source "FreeSound" subset) eqn:Efsd.
  - exists "AudioSet_SL". apply filter_In. split; [simpl; tauto |].
    unfold _use_source, py_any in *. simpl in *.
    rewrite !orb_false_r in Efsd.
    apply String.eqb_eq in Efsd. subst subset. reflexivity.
  - exists "FreeSound". apply filter_In. split; [simpl; tauto |].
    now rewrite Efsd.
Qed.

Lemma zip_pattern_always_ignored (subset : string) :
  In "Zip_files/*" (ign_patterns subset).
Proof.
  destruct (ign_sources_nonempty subset) as [source Hin].
  unfold ign_patterns. apply in_flat_map. exists source. split; [assumption |].
  simpl. tauto.
Qed.

(** Every path below [Zip_files/] is skipped by the fetch, for every subset. *)
Lemma hub_ignores_every_archive (subset rest : string) :
  hub_ignores (ign_patterns subset) ("Zip_files/" +:+ rest) = true.
Proof.
  unfold hub_ignores. apply existsb_exists. exists "Zip_files/*".
  split; [apply zip_pattern_always_ignored | apply fnmatch_zip_files].
Qed.

(** A pattern that starts with literal characters matches a name that
    starts with the same characters when the rest matches. *)
Lemma fnmatch_literal_prefix (pre pat name : string) :
  forallb (fun c => negb (Ascii.eqb c "*") && negb (Ascii.eqb c "?"))
    (String.list_ascii_of_string pre) = true ->
  PyStr.fnmatch_pat (pre +:+ pat) (pre +:+ name) = PyStr.fnmatch_pat pat name.
Proof.
  induction pre as [| c pre IH]; [reflexivity |].
  simpl. intros Hlit. apply andb_true_iff in Hlit. destruct Hlit as [Hc Hpre].
  apply andb_true_iff in Hc. destruct Hc as [Hstar Hquest].
  apply negb_true_iff in Hstar, Hquest.
  rewrite !append_String. simpl. rewrite Hstar, Hquest, Ascii.eqb_refl. simpl.
  now apply IH.
Qed.

Lemma fnmatch_star_cons (pat : string) (c : ascii) (name : string) :
  PyStr.fnmatch_pat (String "*" pat) (String c name) =
  PyStr.fnmatch_pat pat (String c name) || PyStr.fnmatch_pat (String "*" pat) name.
Proof. reflexivity. Qed.

Lemma fnmatch_any_json (name : string) :
  PyStr.fnmatch_pat "*.json" (name +:+ ".json") = true.
Proof.
  induction name as [| c name IH]; [reflexivity |].
  rewrite append_String, fnmatch_star_cons, IH. apply orb_true_r.
Qed.

(** The JSON pattern of one declared source matches the JSON files of that
    source and of no other declared source; the archive pattern matches none. *)
Lemma json_pattern_own_source (source source' name : string) :
  In source SOURCES -> In source' SOURCES ->
  PyStr.fnmatch ("json_files/" +:+ source +:+ "/" +:+ name +:+ ".json")
    ("json_files/" +:+ source' +:+ "/*.json")
  = String.eqb source source'.
Proof.
  assert (Hown : forall dir : string,
             forallb (fun c => negb (Ascii.eqb c "*") && negb (Ascii.eqb c "?"))
               (String.list_ascii_of_string dir) = true ->
             PyStr.fnmatch (dir +:+ name +:+ ".json") (dir +:+ "*.json") = true).
  { intros dir Hdir. unfold PyStr.fnmatch.
    rewrite (fnmatch_literal_prefix dir _ _ Hdir). apply fnmatch_any_json. }
  intros Hs Hs'. simpl in Hs, Hs'.
  destruct Hs as [<- | [<- | [<- | [<- | []]]]];
    destruct Hs' as [<- | [<- | [<- | [<- | []]]]];
    first
      [ exact (Hown "json_files/AudioSet_SL/" eq_refl)
      | exact (Hown "json_files/BBC_Sound_Effects/" eq_refl)
      | exact (Hown "json_files/FreeSound/" eq_refl)
      | exact (Hown "json_files/SoundBible/" eq_refl)
      | vm_compute; reflexivity ].
Qed.

Lemma zip_pattern_no_json (rest : string) :
  PyStr.fnmatch ("json_files/" +:+ rest) "Zip_files/*" = false.
Proof. reflexivity. Qed.

Lemma hub_ignores_json (sources : list string) (source name : string) :
  In source SOURCES ->
  (forall source', In source' sources -> In source' SOURCES) ->
  hub_ignores
    (flat_map
       (fun source' => ["json_files/" +:+ source' +:+ "/*.json"; "Zip_files/*"])
       sources)
    ("json_files/" +:+ source +:+ "/" +:+ name +:+ ".json")
  = existsb (String.eqb source) sources.
Proof.
  intros Hs. unfold hub_ignores.
  induction sources as [| source' rest IH]; intros Hsub; [reflexivity |].
  cbn [flat_map app existsb].
  rewrite (json_pattern_own_source source source' name Hs) by (apply Hsub; now left).
  rewrite zip_pattern_no_json, IH by (intros; apply Hsub; now right).
  reflexivity.
Qed.

(** The JSON patterns follow the sources: a JSON file in the directory of a
    declared source is skipped exactly when the subset leaves that source out. *)
Lemma json_patterns_follow_sources (subset source name : string) :
  In source SOURCES ->
  hub_ignores (ign_patterns subset)
    ("json_files/" +:+ source +:+ "/" +:+ name +:+ ".json")
  = negb (_use_source source subset).
Proof.
  intros Hs. unfold ign_patterns.
  rewrite (hub_ignores_json _ source name Hs)
    by (intros source' Hin; apply filter_In in Hin; apply Hin).
  unfold ign_sources.
  destruct (negb (_use_source source subset)) eqn:Euse.
  - apply existsb_exists. exists source. split; [| apply String.eqb_refl].
    apply filter_In. now split.
  - destruct (existsb _ _) eqn:Eex; [| reflexivity].
    apply existsb_exists in Eex. destruct Eex as (source' & Hin & Heq).
    apply String.eqb_eq in Heq. subst source'.
    apply filter_In in Hin. destruct Hin as [_ Hin]. congruence.
Qed.

(** C2, at its failing input: for subset "as" the source AudioSet_SL is
    active, yet the ignore patterns handed to the snapshot fetch match its
    archive [Zip_files/AudioSet_SL/AudioSet_SL.zip]; the pattern that does so
    is [Zip_files/*], which names no source.  The same holds for every subset
    and every file below [Zip_files/]. *)
Theorem ign_patterns_match_active_archive :
  _use_source "AudioSet_SL" "as" = true /\
  In "Zip_files/*" (ign_patterns "as") /\
  hub_ignores (ign_patterns "as") "Zip_files/AudioSet_SL/AudioSet_SL.zip" = true /\
  (forall subset source name,
      hub_ignores (ign_patterns subset)
        ("Zip_files/" +:+ source +:+ "/" +:+ name) = true).
Proof.
  split; [reflexivity |]. split; [simpl; tauto |]. split; [reflexivity |].
  intros subset source name. apply hub_ignores_every_archive.
Qed.

(** ** File names of the AudioSet source *)

Lemma prefix_String (a b : ascii) (s t : string) :
  String.prefix (String a s) (String b t) =
  if Ascii.ascii_dec a b then String.prefix s t else false.
Proof. simpl. destruct (Ascii.ascii_dec a b); reflexivity. Qed.

Lemma prefix_Empty (s : string) : String.prefix "" s = true.
Proof. destruct s; reflexivity. Qed.

(** A string without a dot: its first character is no dot, nor is any later. *)
Lemma no_dot_String (a : ascii) (w : string) :
  PyStr.contains "." (String a w) = false ->
  a <> "."%char /\ PyStr.contains "." w = false.
Proof.
  intros Hc.
  change (String.prefix "." (String a w) || PyStr.contains "." w = false) in Hc.
  apply orb_false_iff in Hc. destruct Hc as [Hp Hw]. split; [| exact Hw].
  intros ->. change "." with (String "." "") in Hp.
  rewrite prefix_String, prefix_Empty in Hp.
  destruct (Ascii.ascii_dec "." "."); [discriminate | congruence].
Qed.

Lemma replace_scan_wav_step (c : ascii) (s : string) :
  PyStr.replace_scan ".wav" ".flac" 0 (String c s) =
  if String.prefix ".wav" (String c s)
  then ".flac" +:+ PyStr.replace_scan ".wav" ".flac" 3 s
  else String c (PyStr.replace_scan ".wav" ".flac" 0 s).
Proof. reflexivity. Qed.




(** An occurrence that follows a dot-free stretch is rewritten, and the scan
    goes on behind it. *)
Lemma replace_wav_occurrence (a b : string) :
  PyStr.contains "." a = false ->
  PyStr.replace ".wav" ".flac" (a +:+ ".wav" +:+ b) =
  a +:+ ".flac" +:+ PyStr.replace ".wav" ".flac" b.
Proof.
  unfold PyStr.replace. induction a as [| c a IH]; intros Ha.
  - rewrite !append_Empty.
    change (".wav" +:+ b) with (String "." (String "w" (String "a" (String "v" b)))).
    rewrite replace_scan_wav_step, !prefix_String. simpl.
    now rewrite prefix_Empty.
  - apply no_dot_String in Ha. destruct Ha as [Hc Ha].
    rewrite !(append_String c a), replace_scan_wav_step, prefix_String.
    destruct (Ascii.ascii_dec "." c) as [<- | _]; [congruence |].
    f_equal. now apply IH.
Qed.


(** ** Unknown subsets *)

Lemma use_source_undeclared (source subset : string) :
  ~ In subset ["as"; "bbc"; "fsd"; "sb"; "as_bbc_sb"] ->
  _use_source source subset = false.
Proof.
  intros Hn. unfold _use_source, py_any.
  rewrite !in_tuple_notin by (intros Hin; apply Hn; simpl in *; tauto).
  rewrite !andb_false_r. reflexivity.
Qed.

(** C9: a subset outside "as", "bbc", "fsd", "sb", "as_bbc_sb" activates no
    source; the loader then raises nothing and returns a table whose columns
    (the ten names the loader keeps, in whatever order) are all empty, and
    construction without download hands the base class a table with empty
    columns only (with download it does so whenever preparation returns). *)
Theorem undeclared_subset_loads_empty
  {FS : Type} `{Platform FS} (subset : string) :
  ~ In subset ["as"; "bbc"; "fsd"; "sb"; "as_bbc_sb"] ->
  (forall source, _use_source source subset = false) /\
  (forall fs root hf_cache_dir revision,
      exists t,
        _load_wavcaps_dataset fs root hf_cache_dir revision subset = inr t /\
        (forall k,
            In k (Dict.keys t) <->
            In k ["captions"; "duration"; "id"; "author"; "description";
                  "download_link"; "href"; "tags"; "source"; "fname"]) /\
        all_empty t) /\
  (forall root download hf_cache_dir revision verbose (st : State FS),
      exists t,
        all_empty t /\
        WavCaps_init root subset download hf_cache_dir revision verbose st =
        match
          when download
            (_prepare_wavcaps_dataset root subset revision hf_cache_dir RESUME_DL
               FORCE_PREPARE_DATA VERIFY_FILES CLEAN_ARCHIVES ZIP_PATH verbose) st
        with
        | (st', inl e) => (st', inl e)
        | (st', inr _) => (st', inr t)
        end).
Proof.
  intros Hn.
  assert (Hsrc : forall source, _use_source source subset = false)
    by (intros; now apply use_source_undeclared).
  assert (Hload : forall fs root hf_cache_dir revision,
             _load_wavcaps_dataset fs root hf_cache_dir revision subset =
             inr [("duration", []); ("id", []); ("author", []); ("description", []);
                  ("download_link", []); ("href", []); ("tags", []); ("source", []);
                  ("fname", []); ("captions", [])]).
  { intros. unfold _load_wavcaps_dataset, json_paths_of. simpl List.filter.
    rewrite !Hsrc. reflexivity. }
  split; [exact Hsrc |]. split.
  - intros. eexists. split; [apply Hload |]. split; [| repeat constructor].
    intros k. simpl. tauto.
  - intros. eexists. split; cycle 1.
    + unfold WavCaps_init. unfold bind at 1.
      destruct (when download _ st) as [st' [e | []]]; [reflexivity |].
      unfold bind, query, lift, ret. rewrite Hload. simpl. reflexivity.
    + repeat constructor.
Qed.

Lemma undeclared_subset_loads_empty_witness :
  ~ In "all" ["as"; "bbc"; "fsd"; "sb"; "as_bbc_sb"] /\
  (forall source, _use_source source "all" = false) /\
  (exists t,
      _load_wavcaps_dataset metadata_root "." None None "all" = inr t /\
      (forall k,
          In k (Dict.keys t) <->
          In k ["captions"; "duration"; "id"; "author"; "description";
                "download_link"; "href"; "tags"; "source"; "fname"]) /\
      all_empty t) /\
  (exists t,
      all_empty t /\
      WavCaps_init "." "all" false None None 1 (start metadata_root false)
      = (start metadata_root false, inr t)).
Proof.
  assert (Hn : ~ In "all" ["as"; "bbc"; "fsd"; "sb"; "as_bbc_sb"]).
  { simpl. intros [E | [E | [E | [E | [E | []]]]]]; discriminate E. }
  destruct (undeclared_subset_loads_empty (FS := SimFS) "all" Hn)
    as (Hsrc & Hload & Hinit).
  split; [exact Hn |]. split; [exact Hsrc |].
  split; [exact (Hload metadata_root "." None None) |].
  exact (Hinit "." false None None 1 (start metadata_root false)).
Defined.

(** ** The completeness check *)

Section Completeness.
Context {FS : Type} `{Platform FS}.
Variables (root : string) (hf_cache_dir revision : option string).

Lemma expected_size_declared (source : string) :
  In source SOURCES -> exists e, Dict.get source EXPECTED_SIZES = Some e.
Proof.
  simpl. intros [<- | [<- | [<- | [<- | []]]]]; eexists; reflexivity.
Qed.

(** One turn of the loop, spelled out. *)
Lemma check_sources_cons (source : string) (rest : list string) (st : State FS) :
  check_sources root hf_cache_dir revision (source :: rest) st =
  match _get_audio_subset_dpath root hf_cache_dir revision source with
  | inl e => (st, inl e)
  | inr dpath =>
      match os_listdir (st_fs st) dpath with
      | inl e => (st, inl e)
      | inr names =>
          match Dict.get source EXPECTED_SIZES with
          | None => (st, inl (KeyError source))
          | Some expected =>
              if expected =? Z.of_nat (length names)
              then check_sources root hf_cache_dir revision rest st
              else (logged st ERROR (invalid_count_msg source expected (length names)),
                    inr false)
          end
      end
  end.
Proof.
  cbn [check_sources]. unfold bind, lift, listdir, query, Dict.item.
  destruct (_get_audio_subset_dpath root hf_cache_dir revision source); [reflexivity |].
  destruct (os_listdir (st_fs st) s); [reflexivity |].
  destruct (Dict.get source EXPECTED_SIZES); [| reflexivity].
  destruct (z =? Z.of_nat (length l)); reflexivity.
Qed.

(** The check as a function of the listed and the declared counts. *)
Lemma check_sources_counts (source : string) (rest : list string) (st : State FS)
  (n : nat) (e : Z) :
  listed_count (st_fs st) root hf_cache_dir revision source = inr n ->
  Dict.get source EXPECTED_SIZES = Some e ->
  check_sources root hf_cache_dir revision (source :: rest) st =
  if e =? Z.of_nat n
  then check_sources root hf_cache_dir revision rest st
  else (logged st ERROR (invalid_count_msg source e n), inr false).
Proof.
  intros Hn He. rewrite check_sources_cons. unfold listed_count, res_bind in Hn.
  destruct (_get_audio_subset_dpath root hf_cache_dir revision source); [discriminate |].
  destruct (os_listdir (st_fs st) s); [discriminate |].
  injection Hn as <-. now rewrite He.
Qed.

Lemma check_sources_true (sources : list string) (st : State FS) :
  Forall (count_ok (st_fs st) root hf_cache_dir revision) sources ->
  check_sources root hf_cache_dir revision sources st = (st, inr true).
Proof.
  induction 1 as [| source rest (n & Hn & He) _ IH]; [reflexivity |].
  rewrite (check_sources_counts _ _ _ _ _ Hn He), Z.eqb_refl. exact IH.
Qed.

Lemma check_sources_true_inv (sources : list string) (st : State FS) :
  snd (check_sources root hf_cache_dir revision sources st) = inr true ->
  Forall (count_ok (st_fs st) root hf_cache_dir revision) sources.
Proof.
  induction sources as [| source rest IH]; intros Hr; [constructor |].
  rewrite check_sources_cons in Hr.
  destruct (_get_audio_subset_dpath root hf_cache_dir revision source)
    as [| dpath] eqn:Ed; [discriminate |].
  destruct (os_listdir (st_fs st) dpath) as [| names] eqn:El; [discriminate |].
  destruct (Dict.get source EXPECTED_SIZES) as [e |] eqn:He; [| discriminate].
  destruct (e =? Z.of_nat (length names)) eqn:Eeq; [| discriminate].
  apply Z.eqb_eq in Eeq. subst e.
  constructor; [| now apply IH]. exists (length names).
  unfold listed_count, res_bind. rewrite Ed, El. split; [reflexivity | exact He].
Qed.

(** With every directory listable, a failed check stops at the first source
    whose count differs, logs it and returns false. *)
Lemma check_sources_false (sources : list string) (st : State FS) :
  Forall
    (fun source =>
       In source SOURCES /\
       exists n, listed_count (st_fs st) root hf_cache_dir revision source = inr n)
    sources ->
  ~ Forall (count_ok (st_fs st) root hf_cache_dir revision) sources ->
  exists (before : list string) (source : string) (after : list string)
         (n : nat) (e : Z),
    sources = before ++ source :: after /\
    Forall (count_ok (st_fs st) root hf_cache_dir revision) before /\
    listed_count (st_fs st) root hf_cache_dir revision source = inr n /\
    Dict.get source EXPECTED_SIZES = Some e /\
    e <> Z.of_nat n /\
    check_sources root hf_cache_dir revision sources st =
    (logged st ERROR (invalid_count_msg source e n), inr false).
Proof.
  induction 1 as [| source rest (Hsrc & n & Hn) _ IH]; intros Hnot.
  - exfalso. apply Hnot. constructor.
  - destruct (expected_size_declared _ Hsrc) as [e He].
    rewrite (check_sources_counts _ _ _ _ _ Hn He).
    destruct (e =? Z.of_nat n) eqn:Eeq.
    + apply Z.eqb_eq in Eeq.
      assert (Hok : count_ok (st_fs st) root hf_cache_dir revision source)
        by (exists n; split; [exact Hn | now rewrite He, Eeq]).
      destruct IH as (before & s' & after & n' & e' & Hsplit & Hbefore & Hrest).
      { intros Hall. apply Hnot. now constructor. }
      exists (source :: before), s', after, n', e'.
      split; [now rewrite Hsplit |]. split; [now constructor | exact Hrest].
    + apply Z.eqb_neq in Eeq.
      exists [], source, rest, n, e. repeat split; try assumption. constructor.
Qed.

Lemma active_filter (subset source : string) :
  In source (List.filter (fun s => _use_source s subset) SOURCES) <->
  active subset source.
Proof.
  unfold active. exact (filter_In (fun s => _use_source s subset) source SOURCES).
Qed.

(** The check makes no call and leaves file system and switch alone. *)
Lemma check_sources_frame (sources : list string) (st : State FS) :
  let st' := fst (check_sources root hf_cache_dir revision sources st) in
  st_fs st' = st_fs st /\ st_calls st' = st_calls st /\
  st_pbars_disabled st' = st_pbars_disabled st.
Proof.
  induction sources as [| source rest IH]; [now simpl |].
  rewrite check_sources_cons.
  destruct (_get_audio_subset_dpath root hf_cache_dir revision source); [now simpl |].
  destruct (os_listdir (st_fs st) s); [now simpl |].
  destruct (Dict.get source EXPECTED_SIZES); [| now simpl].
  destruct (z =? Z.of_nat (length l)); [exact IH | now simpl].
Qed.

End Completeness.

(** C3, as the code has it: the completeness check returns true if and only
    if, for every source the subset uses, the number of names listed in its
    audio directory equals its declared count; otherwise, when the audio
    directories of the used sources can be listed, it returns false and logs
    one error record that names the first failing source, in the order of
    [WavCaps.SOURCES], with its declared and its found count: every used
    source before it has the declared count, and the sources after it are
    not looked at. *)
Theorem is_prepared_iff_counts_match
  {FS : Type} `{Platform FS}
  (root : string) (hf_cache_dir revision : option string) (subset : string)
  (st : State FS) :
  (snd (_is_prepared root hf_cache_dir revision subset st) = inr true <->
   forall source,
     active subset source -> count_ok (st_fs st) root hf_cache_dir revision source) /\
  ((forall source,
       active subset source ->
       exists n, listed_count (st_fs st) root hf_cache_dir revision source = inr n) ->
   ~ (forall source,
         active subset source ->
         count_ok (st_fs st) root hf_cache_dir revision source) ->
   exists (before : list string) (source : string) (after : list string)
          (n : nat) (e : Z),
     List.filter (fun s => _use_source s subset) SOURCES = before ++ source :: after /\
     Forall (count_ok (st_fs st) root hf_cache_dir revision) before /\
     active subset source /\
     listed_count (st_fs st) root hf_cache_dir revision source = inr n /\
     Dict.get source EXPECTED_SIZES = Some e /\
     e <> Z.of_nat n /\
     _is_prepared root hf_cache_dir revision subset st =
     (logged st ERROR (invalid_count_msg source e n), inr false)).
Proof.
  unfold _is_prepared. split; [split |].
  - intros Hr source Hact. apply check_sources_true_inv in Hr.
    rewrite List.Forall_forall in Hr. apply Hr. now apply active_filter.
  - intros Hall. rewrite check_sources_true; [reflexivity |].
    apply List.Forall_forall. intros source Hin. apply Hall. now apply active_filter.
  - intros Hlist Hnot.
    destruct (check_sources_false root hf_cache_dir revision
                (List.filter (fun s => _use_source s subset) SOURCES) st)
      as (before & source & after & n & e & Hsplit & Hbefore & Hrest).
    + apply List.Forall_forall. intros source Hin. apply active_filter in Hin.
      split; [apply Hin | now apply Hlist].
    + intros Hall. apply Hnot. intros source Hact.
      rewrite List.Forall_forall in Hall. apply Hall. now apply active_filter.
    + exists before, source, after, n, e.
      split; [exact Hsplit |]. split; [exact Hbefore |]. split; [| exact Hrest].
      apply active_filter. rewrite Hsplit. apply in_or_app. right. now left.
Qed.

(** ** Calls made by a program *)

Section Calls.
Context {FS : Type} `{Platform FS}.
Variable P : Call -> Prop.

Lemma bind_run {A B : Type} (m : M FS A) (k : A -> M FS B) (st : State FS) :
  bind m k st =
  match m st with
  | (st', inl e) => (st', inl e)
  | (st', inr a) => k a st'
  end.
Proof. reflexivity. Qed.

Lemma only_calls_silent {A : Type} (m : M FS A) :
  (forall st, st_calls (fst (m st)) = st_calls st) -> only_calls P m.
Proof.
  intros Hm st. exists []. rewrite Hm, app_nil_r. split; [reflexivity | constructor].
Qed.

Lemma only_calls_ret {A : Type} (a : A) : only_calls P (ret a : M FS A).
Proof. now apply only_calls_silent. Qed.

Lemma only_calls_raise {A : Type} (e : exn) : only_calls P (raise e : M FS A).
Proof. now apply only_calls_silent. Qed.

Lemma only_calls_lift {A : Type} (r : Res A) : only_calls P (lift r : M FS A).
Proof. now apply only_calls_silent. Qed.

Lemma only_calls_ask {A : Type} (q : FS -> A) : only_calls P (ask q).
Proof. now apply only_calls_silent. Qed.

Lemma only_calls_query {A : Type} (q : FS -> Res A) : only_calls P (query q).
Proof. now apply only_calls_silent. Qed.

Lemma only_calls_emit (lvl : Level) (msg : string) : only_calls P (emit lvl msg : M FS unit).
Proof. now apply only_calls_silent. Qed.

Lemma only_calls_call (c : Call) : P c -> only_calls P (call c).
Proof.
  intros Hc st. exists [c]. unfold call.
  destruct (run_call c (st_fs st)) as [fs' r]. split; [reflexivity |].
  now constructor.
Qed.

Lemma only_calls_bind {A B : Type} (m : M FS A) (k : A -> M FS B) :
  only_calls P m -> (forall a, only_calls P (k a)) -> only_calls P (bind m k).
Proof.
  intros Hm Hk st. rewrite bind_run.
  destruct (Hm st) as (more & Hcalls & Hmore).
  destruct (m st) as [st' [e | a]]; [now exists more |].
  destruct (Hk a st') as (more' & Hcalls' & Hmore').
  exists (more ++ more'). simpl in Hcalls. rewrite Hcalls', Hcalls, app_assoc.
  split; [reflexivity | now apply Forall_app].
Qed.

Lemma only_calls_when (b : bool) (m : M FS unit) :
  only_calls P m -> only_calls P (when b m).
Proof. destruct b; [trivial | intros _; apply only_calls_ret]. Qed.

Lemma only_calls_debug (verbose : Z) (msg : string) : only_calls P (debug verbose msg : M FS unit).
Proof. apply only_calls_when, only_calls_emit. Qed.

Lemma only_calls_assert (b : bool) : only_calls P (py_assert b : M FS unit).
Proof. destruct b; [apply only_calls_ret | apply only_calls_raise]. Qed.

Lemma only_calls_listdir (dpath : string) : only_calls P (listdir dpath).
Proof. apply only_calls_query. Qed.

Lemma only_calls_for_each {A : Type} (xs : list A) (body : A -> M FS unit) :
  (forall x, only_calls P (body x)) -> only_calls P (for_each xs body).
Proof.
  intros Hbody. induction xs as [| x xs IH]; [apply only_calls_ret |].
  apply only_calls_bind; [apply Hbody | intros _; exact IH].
Qed.

End Calls.

(** Splits a program along its binds and branches. *)
Ltac calls_step :=
  first
    [ apply only_calls_ret | apply only_calls_raise | apply only_calls_lift
    | apply only_calls_ask | apply only_calls_query | apply only_calls_emit
    | apply only_calls_debug | apply only_calls_assert | apply only_calls_listdir
    | apply only_calls_when
    | apply only_calls_for_each; intros ?
    | apply only_calls_bind; [| intros ?]
    | apply only_calls_call
    | match goal with
      | |- only_calls _ (if ?b then _ else _) => destruct b
      | |- only_calls _ (match ?x with _ => _ end) => destruct x
      end ].

Ltac calls := repeat calls_step.

Section Calls_of_the_pipeline.
Context {FS : Type} `{Platform FS}.

Lemma debug_run (verbose : Z) (msg : string) (st : State FS) :
  debug verbose msg st = (if 2 <=? verbose then logged st DEBUG msg else st, inr tt).
Proof. unfold debug, when. destruct (2 <=? verbose); reflexivity. Qed.

(** The fetch block, spelled out: the switch is never moved before the
    call, and it is set to "enabled" afterwards when it was "disabled" and
    [verbose <= 0]. *)
Lemma fetch_snapshot_run
  (revision : option string) (cache_dir : string) (resume_dl force : bool)
  (patterns : list string) (verbose : Z) (st : State FS) :
  let c :=
    SnapshotDownload REPO_ID "dataset" revision resume_dl (negb force) cache_dir
      None patterns (st_pbars_disabled st) in
  fetch_snapshot revision cache_dir resume_dl force patterns verbose st =
  match run_call c (st_fs st) with
  | (fs', inl e) =>
      (mkState fs' (st_pbars_disabled st) (st_log st) (st_calls st ++ [c]), inl e)
  | (fs', inr path) =>
      (mkState fs'
         (if st_pbars_disabled st && (verbose <=? 0) then false
          else st_pbars_disabled st)
         (st_log st) (st_calls st ++ [c]),
       inr path)
  end.
Proof.
  destruct st as [fs pb lg cs].
  unfold fetch_snapshot, bind, are_progress_bars_disabled, when,
    disable_progress_bars, enable_progress_bars, set_progress_bars_disabled,
    call, ret.
  destruct pb, (verbose <=? 0); simpl;
    destruct (run_call _ fs) as [fs' [e | path]]; reflexivity.
Qed.


End Calls_of_the_pipeline.

Lemma is_prepared_iff_counts_match_witness :
  (forall source,
      active "as_bbc_sb" source ->
      exists n, listed_count two_files_root "." None None source = inr n) /\
  ~ (forall source,
        active "as_bbc_sb" source ->
        count_ok two_files_root "." None None source) /\
  listed_count two_files_root "." None None "BBC_Sound_Effects" = inr 0%nat /\
  listed_count two_files_root "." None None "SoundBible" = inr 0%nat /\
  (exists (before : list string) (source : string) (after : list string)
          (n : nat) (e : Z),
      List.filter (fun s => _use_source s "as_bbc_sb") SOURCES
      = before ++ source :: after /\
      Forall (count_ok two_files_root "." None None) before /\
      active "as_bbc_sb" source /\
      listed_count two_files_root "." None None source = inr n /\
      Dict.get source EXPECTED_SIZES = Some e /\
      e <> Z.of_nat n /\
      _is_prepared "." None None "as_bbc_sb" (start two_files_root false) =
      (logged (start two_files_root false) ERROR (invalid_count_msg source e n),
       inr false)) /\
  st_log (fst (_is_prepared "." None None "as_bbc_sb" (start two_files_root false)))
  = [mkLog ERROR
       "Invalid number of files for source=AudioSet_SL. (expected 108317 but found 2 files)"] /\
  snd (_is_prepared "." None None "sb" (start surplus_root false)) = inr true.
Proof.
  assert (Hlist : forall source,
             active "as_bbc_sb" source ->
             exists n, listed_count two_files_root "." None None source = inr n).
  { intros source [Hin Huse]. simpl in Hin.
    destruct Hin as [<- | [<- | [<- | [<- | []]]]];
      try (vm_compute in Huse; discriminate Huse);
      eexists; vm_compute; reflexivity. }
  assert (Hnot : ~ (forall source,
                       active "as_bbc_sb" source ->
                       count_ok two_files_root "." None None source)).
  { intros Hall. destruct (Hall "AudioSet_SL") as (n & Hn & He).
    - split; [simpl; tauto | reflexivity].
    - vm_compute in Hn. injection Hn as <-. vm_compute in He. discriminate He. }
  split; [exact Hlist |]. split; [exact Hnot |].
  split; [vm_compute; reflexivity |]. split; [vm_compute; reflexivity |].
  split;
    [exact (proj2 (is_prepared_iff_counts_match "." None None "as_bbc_sb"
                     (start two_files_root false)) Hlist Hnot) |].
  split; [vm_compute; reflexivity |].
  apply (proj1 (is_prepared_iff_counts_match "." None None "sb"
                  (start surplus_root false))).
  intros source' [Hin Huse]. simpl in Hin.
  destruct Hin as [<- | [<- | [<- | [<- | []]]]];
    try (vm_compute in Huse; discriminate Huse).
  exists 1320%nat. split; vm_compute; reflexivity.
Defined.

(** C3, as stated, fails on a root without audio directories: the check
    neither returns true nor false, the listing of the first directory raises. *)
Lemma is_prepared_raises_without_directory :
  snd (_is_prepared "." None None "as" (start (sim_empty (inr "/cache/snap")) false))
  = inl (FileNotFoundError "./WavCaps/Audio/AudioSet_SL") /\
  snd (_is_prepared "." None None "as" (start (sim_empty (inr "/cache/snap")) false))
  <> inr true /\
  snd (_is_prepared "." None None "as" (start (sim_empty (inr "/cache/snap")) false))
  <> inr false.
Proof.
  split; [vm_compute; reflexivity |].
  split; vm_compute; discriminate.
Qed.

(** ** The guard of the preparation routine *)



(** ** The progress-bar switch around the fetch *)

(** C5, at its failing inputs.  With the progress bars enabled and verbosity
    0 the fetch is called with the bars still enabled, so its progress output
    is not suppressed; with the bars disabled beforehand, verbosity 0 and a
    fetch that succeeds, the bars are enabled afterwards, so the earlier state
    is not restored. *)
Theorem fetch_snapshot_switch_at_verbosity_zero :
  st_calls
    (fst (fetch_snapshot None "/cache" true false [] 0
            (start (sim_empty (inr "/cache/snap")) false)))
  = [SnapshotDownload REPO_ID "dataset" None true true "/cache" None [] false] /\
  snd (fetch_snapshot None "/cache" true false [] 0
         (start (sim_empty (inr "/cache/snap")) true))
  = inr "/cache/snap" /\
  st_pbars_disabled
    (fst (fetch_snapshot None "/cache" true false [] 0
            (start (sim_empty (inr "/cache/snap")) true)))
  = false.
Proof. repeat split; vm_compute; reflexivity. Qed.

(** ** The link to the snapshot *)



(** ** Verification *)





(** ** Re-running on an extracted root *)

Section Steps.
Context {FS : Type} `{Platform FS}.

Lemma bind_lift {A B : Type} (r : Res A) (k : A -> M FS B) (st : State FS) :
  bind (lift r) k st =
  match r with
  | inl e => (st, inl e)
  | inr a => k a st
  end.
Proof. unfold bind, lift. destruct r; reflexivity. Qed.

Lemma bind_ret {A B : Type} (a : A) (k : A -> M FS B) (st : State FS) :
  bind (ret a) k st = k a st.
Proof. reflexivity. Qed.

Lemma bind_ask {A B : Type} (q : FS -> A) (k : A -> M FS B) (st : State FS) :
  bind (ask q) k st = k (q (st_fs st)) st.
Proof. reflexivity. Qed.

Lemma bind_query {A B : Type} (q : FS -> Res A) (k : A -> M FS B) (st : State FS) :
  bind (query q) k st =
  match q (st_fs st) with
  | inl e => (st, inl e)
  | inr a => k a st
  end.
Proof. unfold bind, query. destruct (q (st_fs st)); reflexivity. Qed.

Lemma bind_assert {B : Type} (b : bool) (k : unit -> M FS B) (st : State FS) :
  bind (py_assert b) k st = if b then k tt st else (st, inl AssertionError).
Proof. destruct b; reflexivity. Qed.

Lemma bind_call {B : Type} (c : Call) (k : string -> M FS B) (st : State FS) :
  bind (call c) k st =
  match run_call c (st_fs st) with
  | (fs', inl e) =>
      (mkState fs' (st_pbars_disabled st) (st_log st) (st_calls st ++ [c]), inl e)
  | (fs', inr out) =>
      k out (mkState fs' (st_pbars_disabled st) (st_log st) (st_calls st ++ [c]))
  end.
Proof.
  unfold bind, call. destruct (run_call c (st_fs st)) as [fs' [e | out]]; reflexivity.
Qed.





End Steps.



(** ** The column table *)

Section Results.

Lemma res_map_length {A B : Type} (f : A -> Res B) (xs : list A) (ys : list B) :
  res_map f xs = inr ys -> length ys = length xs.
Proof.
  revert ys. induction xs as [| x xs IH]; intros ys Hr; simpl in Hr.
  - now injection Hr as <-.
  - unfold res_bind in Hr. destruct (f x); [discriminate |].
    destruct (res_map f xs) as [| ys']; [discriminate |].
    injection Hr as <-. simpl. f_equal. now apply IH.
Qed.

Lemma res_map_Forall {A B : Type} (f : A -> Res B) (Q : B -> Prop)
  (xs : list A) (ys : list B) :
  (forall x y, f x = inr y -> Q y) -> res_map f xs = inr ys -> Forall Q ys.
Proof.
  intros Hf. revert ys. induction xs as [| x xs IH]; intros ys Hr; simpl in Hr.
  - injection Hr as <-. constructor.
  - unfold res_bind in Hr. destruct (f x) as [| y] eqn:Ey; [discriminate |].
    destruct (res_map f xs) as [| ys']; [discriminate |].
    injection Hr as <-. constructor; [now apply (Hf x) | now apply IH].
Qed.

End Results.

Section Dict_facts.
Context {V : Type}.

Lemma get_In (k : string) (v : V) (d : Dict.t V) :
  Dict.get k d = Some v -> In (k, v) d.
Proof.
  induction d as [| [k' v'] d IH]; simpl; [discriminate |].
  destruct (String.eqb_spec k k') as [-> | Hne].
  - intros [= ->]. now left.
  - intros Hg. right. now apply IH.
Qed.

Lemma get_set (k k' : string) (v old : V) (d : Dict.t V) :
  Dict.get k d = Some old ->
  Dict.get k' (Dict.set k v d) = if String.eqb k' k then Some v else Dict.get k' d.
Proof.
  induction d as [| [k0 v0] d IH]; simpl; [discriminate |].
  destruct (String.eqb_spec k k0) as [-> | Hne]; intros Hg; simpl.
  - destruct (String.eqb k' k0); reflexivity.
  - rewrite (IH Hg).
    destruct (String.eqb_spec k' k0) as [-> | Hne']; [| reflexivity].
    destruct (String.eqb_spec k0 k) as [-> | _]; [congruence | reflexivity].
Qed.

Lemma keys_set (k : string) (v old : V) (d : Dict.t V) :
  Dict.get k d = Some old -> Dict.keys (Dict.set k v d) = Dict.keys d.
Proof.
  unfold Dict.keys. induction d as [| [k0 v0] d IH]; simpl; [discriminate |].
  destruct (String.eqb_spec k k0) as [-> | Hne]; intros Hg; simpl.
  - reflexivity.
  - f_equal. now apply IH.
Qed.

Lemma Forall_remove (P : string * V -> Prop) (k : string) (d : Dict.t V) :
  Forall P d -> Forall P (Dict.remove k d).
Proof.
  unfold Dict.remove. induction 1 as [| kv d Hkv _ IH]; simpl; [constructor |].
  destruct (negb (String.eqb k (fst kv))); [now constructor | assumption].
Qed.

End Dict_facts.

Section Column_lengths.
Context {FS : Type} `{Platform FS}.

Lemma extend_length (k : string) (vs : list pyval) (d d' : table) :
  Dict.extend k vs d = inr d' ->
  Dict.keys d' = Dict.keys d /\
  forall k',
    column_length k' d' =
    (column_length k' d + if String.eqb k' k then length vs else 0)%nat.
Proof.
  unfold Dict.extend. destruct (Dict.get k d) as [old |] eqn:Hold; [| discriminate].
  intros [= <-]. split; [now apply (keys_set k _ old) |].
  intros k'. unfold column_length. rewrite (get_set k k' _ old d Hold).
  destruct (String.eqb_spec k' k) as [-> | _].
  - rewrite Hold. simpl. now rewrite length_app.
  - now rewrite Nat.add_0_r.
Qed.

(** Every column of a loaded JSON file has one value per record. *)
Lemma load_json_columns (fs : FS) (fpath : string) (json_data : table) (size : nat) :
  _load_json fs fpath = inr (json_data, size) ->
  Forall (fun column => length (snd column) = size) json_data.
Proof.
  unfold _load_json, res_bind.
  destruct (json_load fs fpath) as [| doc]; [discriminate |].
  destruct (py_getitem doc "data") as [| data]; [discriminate |].
  destruct data as [| | | | | items |]; try discriminate.
  simpl. destruct (res_map as_record items) as [| records] eqn:Erec; [discriminate |].
  apply res_map_length in Erec.
  destruct records as [| first others].
  - simpl. intros [= <- <-]. constructor.
  - unfold res_bind.
    destruct (forallb (same_keys first) others); [| simpl; discriminate].
    destruct (res_map _ (Dict.keys first)) as [| columns] eqn:Ecols;
      [simpl; discriminate |].
    simpl. intros [= <- <-].
    eapply res_map_Forall; [| exact Ecols].
    intros k [k' column] Hk. unfold res_bind in Hk.
    destruct (res_map (Dict.item k) (first :: others)) as [| column'] eqn:Ecol;
      [discriminate |].
    injection Hk as <- <-. apply res_map_length in Ecol. simpl. congruence.
Qed.

Lemma json_column_length (json_data : table) (size : nat) (k : string) (column : list pyval) :
  Forall (fun column => length (snd column) = size) json_data ->
  Dict.item k json_data = inr column ->
  length column = size.
Proof.
  intros Hall Hitem. unfold Dict.item in Hitem.
  destruct (Dict.get k json_data) as [c |] eqn:Hg; [| discriminate].
  injection Hitem as <-. apply get_In in Hg.
  rewrite List.Forall_forall in Hall. exact (Hall _ Hg).
Qed.

Lemma add_fnames_length (source : string) (size : nat) (json_data raw_data raw' : table) :
  Forall (fun column => length (snd column) = size) json_data ->
  add_fnames source json_data raw_data = inr raw' ->
  Dict.keys raw' = Dict.keys raw_data /\
  forall k',
    column_length k' raw' =
    (column_length k' raw_data + if String.eqb k' "fname" then size else 0)%nat.
Proof.
  intros Hjson. unfold add_fnames, res_bind.
  destruct (String.eqb source "AudioSet_SL").
  { destruct (Dict.item "id" json_data) as [| ids] eqn:Eids; [discriminate |].
    destruct (res_map _ ids) as [| fnames] eqn:Efn; [discriminate |].
    intros Hext. apply extend_length in Hext.
    apply res_map_length in Efn.
    rewrite Efn, (json_column_length _ _ _ _ Hjson Eids) in Hext. exact Hext. }
  destruct (String.eqb source "BBC_Sound_Effects" || String.eqb source "FreeSound"
            || String.eqb source "SoundBible") eqn:Eother.
  - assert (Hsame :
              (let* ids := Dict.item "id" json_data in
               Dict.extend "fname" (map (fun id_ => VStr (py_str id_ +:+ ".flac")) ids)
                 raw_data)%res = inr raw' ->
              Dict.keys raw' = Dict.keys raw_data /\
              forall k',
                column_length k' raw' =
                (column_length k' raw_data
                 + if String.eqb k' "fname" then size else 0)%nat).
    { unfold res_bind.
      destruct (Dict.item "id" json_data) as [| ids] eqn:Eids; [discriminate |].
      intros Hext. apply extend_length in Hext.
      rewrite length_map, (json_column_length _ _ _ _ Hjson Eids) in Hext.
      exact Hext. }
    unfold res_bind in Hsame.
    destruct (String.eqb source "BBC_Sound_Effects"); [exact Hsame |].
    destruct (String.eqb source "FreeSound"); [exact Hsame |].
    destruct (String.eqb source "SoundBible"); [exact Hsame | discriminate Eother].
  - apply orb_false_iff in Eother. destruct Eother as [Eother Esb].
    apply orb_false_iff in Eother. destruct Eother as [Ebbc Efsd].
    rewrite Ebbc, Efsd, Esb. discriminate.
Qed.

Lemma add_column_length
  (source : string) (size : nat) (json_data raw_data raw' : table) (k : string) :
  Forall (fun column => length (snd column) = size) json_data ->
  add_column source size json_data raw_data k = inr raw' ->
  Dict.keys raw' = Dict.keys raw_data /\
  forall k',
    k' <> "audio" -> k' <> "file_name" ->
    column_length k' raw' =
    (column_length k' raw_data + if String.eqb k' k then size else 0)%nat.
Proof.
  intros Hjson. unfold add_column, res_bind.
  destruct (Dict.mem k json_data).
  { destruct (Dict.item k json_data) as [| column] eqn:Ecol; [discriminate |].
    intros Hext. apply extend_length in Hext.
    rewrite (json_column_length _ _ _ _ Hjson Ecol) in Hext.
    split; [apply Hext | intros; apply Hext]. }
  destruct (Dict.mem k _DEFAULT_VALUES).
  { destruct (Dict.item k _DEFAULT_VALUES) as [| default_val]; [discriminate |].
    intros Hext. apply extend_length in Hext. rewrite repeat_length in Hext.
    split; [apply Hext | intros; apply Hext]. }
  destruct (PyStr.in_tuple k ["audio"; "file_name"]) eqn:Ein; [| discriminate].
  intros [= <-]. split; [reflexivity |]. intros k' Haudio Hfile.
  apply in_tuple_In in Ein.
  destruct (String.eqb_spec k' k) as [-> | _]; [| now rewrite Nat.add_0_r].
  simpl in Ein. destruct Ein as [<- | [<- | []]]; congruence.
Qed.

Lemma add_columns_length
  (source : string) (size : nat) (json_data : table) (ks : list string)
  (raw_data raw' : table) :
  Forall (fun column => length (snd column) = size) json_data ->
  add_columns source size json_data raw_data ks = inr raw' ->
  Dict.keys raw' = Dict.keys raw_data /\
  forall k',
    k' <> "audio" -> k' <> "file_name" ->
    column_length k' raw' = (column_length k' raw_data + hits k' ks * size)%nat.
Proof.
  intros Hjson. revert raw_data.
  induction ks as [| k ks IH]; intros raw_data Hadd; simpl in Hadd.
  - injection Hadd as <-. split; [reflexivity |]. intros. now rewrite Nat.add_0_r.
  - unfold res_bind in Hadd.
    destruct (add_column source size json_data raw_data k) as [| raw1] eqn:E1;
      [discriminate |].
    apply (add_column_length _ _ _ _ _ _ Hjson) in E1. destruct E1 as [Hk1 Hl1].
    apply IH in Hadd. destruct Hadd as [Hk2 Hl2].
    split; [congruence |]. intros k' Haudio Hfile.
    rewrite (Hl2 k' Haudio Hfile), (Hl1 k' Haudio Hfile).
    unfold hits. simpl. destruct (String.eqb k' k); simpl; lia.
Qed.

(** One source adds its record count to every column that is kept. *)
Lemma add_source_length (fs : FS) (raw_data raw' : table) (entry : string * string) :
  add_source fs raw_data entry = inr raw' ->
  Dict.keys raw' = Dict.keys raw_data /\
  forall k',
    In k' ["caption"; "duration"; "id"; "author"; "description"; "download_link";
           "href"; "tags"; "source"; "fname"] ->
    column_length k' raw' = (column_length k' raw_data + record_count fs (snd entry))%nat.
Proof.
  destruct entry as [source json_path]. unfold add_source, record_count, res_bind.
  cbn [snd].
  destruct (_load_json fs json_path) as [| [json_data size]] eqn:Eload; [discriminate |].
  apply load_json_columns in Eload.
  apply (Forall_remove _ "audio") in Eload.
  destruct (add_fnames source _ raw_data) as [| raw1] eqn:E1; [discriminate |].
  apply (add_fnames_length _ _ _ _ _ Eload) in E1. destruct E1 as [Hk1 Hl1].
  destruct (add_columns source size _ raw1 _WAVCAPS_RAW_COLUMNS) as [| raw2] eqn:E2;
    [discriminate |].
  apply (add_columns_length _ _ _ _ _ _ Eload) in E2. destruct E2 as [Hk2 Hl2].
  intros Hext. apply extend_length in Hext. destruct Hext as [Hk3 Hl3].
  split; [congruence |]. intros k' Hin. cbn [snd].
  rewrite Hl3, repeat_length.
  simpl in Hin.
  destruct Hin as [<- | [<- | [<- | [<- | [<- | [<- | [<- | [<- | [<- | [<- | []]]]]]]]]]];
    (rewrite Hl2 by discriminate); rewrite Hl1; simpl; lia.
Qed.

Lemma add_sources_length (fs : FS) (entries : list (string * string))
  (raw_data raw' : table) :
  add_sources fs raw_data entries = inr raw' ->
  Dict.keys raw' = Dict.keys raw_data /\
  forall k',
    In k' ["caption"; "duration"; "id"; "author"; "description"; "download_link";
           "href"; "tags"; "source"; "fname"] ->
    column_length k' raw' =
    (column_length k' raw_data
     + list_sum (map (fun entry => record_count fs (snd entry)) entries))%nat.
Proof.
  revert raw_data. induction entries as [| entry rest IH]; intros raw_data Hadd;
    simpl in Hadd.
  - injection Hadd as <-. split; [reflexivity |]. intros. simpl. lia.
  - unfold res_bind in Hadd.
    destruct (add_source fs raw_data entry) as [| raw1] eqn:E1; [discriminate |].
    apply add_source_length in E1. destruct E1 as [Hk1 Hl1].
    apply IH in Hadd. destruct Hadd as [Hk2 Hl2].
    split; [congruence |]. intros k' Hin.
    rewrite (Hl2 k' Hin), (Hl1 k' Hin). simpl. lia.
Qed.

End Column_lengths.

(** C8: whenever the metadata loader returns a table, all its columns have
    the same length, the sum of the record counts of the JSON files of the
    sources the subset uses; columns a file omits are filled with defaults,
    one per record, so the lengths agree all the same. *)
Theorem loaded_columns_have_total_length
  {FS : Type} `{Platform FS}
  (fs : FS) (root : string) (hf_cache_dir revision : option string)
  (subset : string) (t : table) :
  _load_wavcaps_dataset fs root hf_cache_dir revision subset = inr t ->
  columns_have_length (total_records fs root hf_cache_dir revision subset) t.
Proof.
  unfold _load_wavcaps_dataset, total_records, columns_have_length.
  set (total := list_sum _).
  unfold res_bind at 1.
  destruct (add_sources fs _ _) as [| raw] eqn:Eadd; [discriminate |].
  apply add_sources_length in Eadd. fold total in Eadd. destruct Eadd as [Hkeys Hlen].
  assert (Hcol : forall k, In k ["caption"; "duration"; "id"; "author"; "description";
                                 "download_link"; "href"; "tags"; "source"; "fname"] ->
                           column_length k raw = total).
  { intros k Hk. rewrite (Hlen k Hk). simpl in Hk.
    destruct Hk as [<- | [<- | [<- | [<- | [<- | [<- | [<- | [<- | [<- | [<- | []]]]]]]]]]];
      reflexivity. }
  clear Hlen. unfold Dict.keys in Hkeys. simpl in Hkeys.
  do 12 (destruct raw as [| [? ?] raw]; [discriminate Hkeys |];
         simpl in Hkeys; injection Hkeys as -> Hkeys).
  destruct raw; [| discriminate Hkeys]. clear Hkeys.
  pose proof (Hcol "caption" ltac:(simpl; tauto)) as Hcaption.
  pose proof (Hcol "duration" ltac:(simpl; tauto)) as Hduration.
  pose proof (Hcol "id" ltac:(simpl; tauto)) as Hid.
  pose proof (Hcol "author" ltac:(simpl; tauto)) as Hauthor.
  pose proof (Hcol "description" ltac:(simpl; tauto)) as Hdescription.
  pose proof (Hcol "download_link" ltac:(simpl; tauto)) as Hlink.
  pose proof (Hcol "href" ltac:(simpl; tauto)) as Hhref.
  pose proof (Hcol "tags" ltac:(simpl; tauto)) as Htags.
  pose proof (Hcol "source" ltac:(simpl; tauto)) as Hsource.
  pose proof (Hcol "fname" ltac:(simpl; tauto)) as Hfname.
  clear Hcol. unfold column_length in *. simpl in *.
  unfold res_bind.
  lazymatch goal with
  | |- context [res_map py_float ?durations] =>
      destruct (res_map py_float durations) as [| floats] eqn:Efloat;
      [discriminate | apply res_map_length in Efloat]
  end.
  intros [= <-].
  repeat constructor; simpl; rewrite ?length_map; congruence.
Qed.

Lemma loaded_columns_have_total_length_witness :
  total_records metadata_root "." None None "as_bbc_sb" = 4%nat /\
  exists t,
    _load_wavcaps_dataset metadata_root "." None None "as_bbc_sb" = inr t /\
    Dict.get "author" t = Some [VStr ""; VStr ""; VStr ""; VStr "Daniel Simion"] /\
    columns_have_length (total_records metadata_root "." None None "as_bbc_sb") t.
Proof.
  split; [vm_compute; reflexivity |].
  eexists. split; [vm_compute; reflexivity |]. split; [reflexivity |].
  apply (loaded_columns_have_total_length metadata_root "." None None "as_bbc_sb").
  vm_compute. reflexivity.
Defined.

(** * Further properties of the module *)

(** ** The source filter and the paths *)

(** X1: a source is used by a subset exactly for the seven pairs of the
    table: AudioSet_SL by "as" and "as_bbc_sb", BBC_Sound_Effects by "bbc"
    and "as_bbc_sb", FreeSound by "fsd" alone, SoundBible by "sb" and
    "as_bbc_sb"; every other pair of strings gives false. *)
Theorem use_source_table (source subset : string) :
  _use_source source subset = true <-> In (source, subset) USED_BY.
Proof.
  unfold _use_source, py_any, PyStr.in_tuple, USED_BY. simpl.
  split.
  - repeat match goal with
           | |- context [String.eqb ?a ?b] =>
               destruct (String.eqb_spec a b); subst; simpl
           end;
      try discriminate; intros _; tauto.
  - intros Hin.
    repeat (destruct Hin as [[= <- <-] | Hin]; [reflexivity |]).
    destruct Hin.
Qed.

Lemma filter_use_source {A : Type} (f : A -> string) (subset : string) (xs : list A) :
  map f (List.filter (fun x => _use_source (f x) subset) xs) =
  List.filter (fun source => _use_source source subset) (map f xs).
Proof.
  induction xs as [| x xs IH]; simpl; [reflexivity |].
  destruct (_use_source (f x) subset); simpl; now rewrite IH.
Qed.

(** X2: the completeness check, the ignore list, the extraction loop and the
    metadata loader agree on the sources of a subset: the loop and the loader
    go through the sources the check goes through, in the same order, and
    the ignore list holds the declared sources that are left. *)
Theorem used_sources_agree
  (root : string) (hf_cache_dir revision : option string) (subset : string) :
  Dict.keys (source_and_splitted subset) = used_sources subset /\
  map fst (json_paths_of root hf_cache_dir revision subset) = used_sources subset /\
  (forall source,
      In source (used_sources subset) <-> active subset source) /\
  (forall source,
      In source (ign_sources subset) <->
      In source SOURCES /\ ~ In source (used_sources subset)).
Proof.
  split; [| split; [| split]].
  - unfold source_and_splitted, Dict.keys. now rewrite filter_use_source.
  - unfold json_paths_of. now rewrite filter_use_source.
  - intros source. unfold used_sources, active. now rewrite filter_In.
  - intros source. unfold ign_sources, used_sources.
    rewrite !filter_In. destruct (_use_source source subset); simpl; split.
    + intros [_ [=]].
    + intros [Hin Hn]. exfalso. apply Hn. now split.
    + intros [Hin _]. split; [assumption |]. now intros [_ [=]].
    + intros [Hin _]. now split.
Qed.

Lemma append_inv_head (a x y : string) : a +:+ x = a +:+ y -> x = y.
Proof.
  induction a as [| c a IH]; push_append; [trivial |].
  intros [= Heq]. now apply IH.
Qed.

Lemma join_inv (a x y : string) :
  PyStr.startswith x "/" = false -> PyStr.startswith y "/" = false ->
  osp.join a x = osp.join a y -> x = y.
Proof.
  unfold osp.join. intros -> ->.
  destruct (String.eqb a "" || PyStr.endswith a "/"); intros Heq.
  - now apply append_inv_head in Heq.
  - apply append_inv_head in Heq. now apply append_inv_head in Heq.
Qed.

Lemma audio_dpath_cases
  (root : string) (hf_cache_dir revision : option string) (source : string) :
  (In source SOURCES /\
   _get_audio_subset_dpath root hf_cache_dir revision source =
   inr (osp.join (osp.join (osp.join root "WavCaps") "Audio") source)) \/
  (~ In source SOURCES /\
   _get_audio_subset_dpath root hf_cache_dir revision source = inl (KeyError source)).
Proof.
  unfold _get_audio_subset_dpath, _get_audio_dpath, _get_wavcaps_dpath, Dict.item.
  simpl.
  repeat match goal with
         | |- context [String.eqb ?a ?b] =>
             destruct (String.eqb_spec a b); [subst; left; simpl; tauto |]
         end.
  right. split; [| reflexivity]. intros [E | [E | [E | [E | []]]]]; congruence.
Qed.

(** X3: the audio directory of a source is defined exactly for the four
    declared sources (any other name raises KeyError), it is the directory
    named after the source below [<root>/WavCaps/Audio], and two sources with
    the same audio directory are the same source. *)
Theorem audio_directories_are_distinct
  (root : string) (hf_cache_dir revision : option string) (source : string) :
  (~ In source SOURCES ->
   _get_audio_subset_dpath root hf_cache_dir revision source = inl (KeyError source)) /\
  (In source SOURCES ->
   _get_audio_subset_dpath root hf_cache_dir revision source =
   inr (osp.join (osp.join (osp.join root "WavCaps") "Audio") source) /\
   forall source',
     _get_audio_subset_dpath root hf_cache_dir revision source' =
     _get_audio_subset_dpath root hf_cache_dir revision source ->
     source' = source).
Proof.
  assert (Hslash : forall s, In s SOURCES -> PyStr.startswith s "/" = false).
  { intros s Hs. simpl in Hs.
    destruct Hs as [<- | [<- | [<- | [<- | []]]]]; reflexivity. }
  destruct (audio_dpath_cases root hf_cache_dir revision source) as [[Hin E] | [Hn E]];
    (split; [intros Hn' | intros Hin']); try contradiction; try assumption.
  split; [assumption |]. intros source' Heq. rewrite E in Heq.
  destruct (audio_dpath_cases root hf_cache_dir revision source')
    as [[Hin2 E2] | [_ E2]]; rewrite E2 in Heq; [| discriminate Heq].
  injection Heq as Heq. apply join_inv in Heq; auto.
Qed.

Lemma audio_directories_are_distinct_witness :
  ~ In "Clotho" SOURCES /\
  _get_audio_subset_dpath "/data" None None "Clotho" = inl (KeyError "Clotho") /\
  In "FreeSound" SOURCES /\
  _get_audio_subset_dpath "/data" None None "FreeSound" =
  inr "/data/WavCaps/Audio/FreeSound".
Proof.
  assert (Hn : ~ In "Clotho" SOURCES).
  { simpl. intros [H | [H | [H | [H | []]]]]; discriminate H. }
  assert (Hin : In "FreeSound" SOURCES) by (simpl; tauto).
  split; [exact Hn |]. split.
  - exact (proj1 (audio_directories_are_distinct "/data" None None "Clotho") Hn).
  - split; [exact Hin |].
    exact (proj1 (proj2 (audio_directories_are_distinct "/data" None None "FreeSound")
                   Hin)).
Defined.

(** X4: a metadata file [json_files/<source>/<name>.json] of a declared
    source is skipped by the snapshot fetch exactly when the subset does not
    use the source: the JSON patterns of the ignore list follow the
    sources. *)
Theorem json_metadata_skipped_iff_unused (subset source name : string) :
  In source SOURCES ->
  hub_ignores (ign_patterns subset)
    ("json_files/" +:+ source +:+ "/" +:+ name +:+ ".json") = true
  <-> _use_source source subset = false.
Proof.
  intros Hin. rewrite (json_patterns_follow_sources subset source name Hin).
  destruct (_use_source source subset); simpl; split; congruence.
Qed.

Lemma json_metadata_skipped_iff_unused_witness :
  In "FreeSound" SOURCES /\
  _use_source "FreeSound" "as_bbc_sb" = false /\
  hub_ignores (ign_patterns "as_bbc_sb") "json_files/FreeSound/fsd_final.json" = true.
Proof.
  assert (Hin : In "FreeSound" SOURCES) by (simpl; tauto).
  split; [exact Hin |]. split; [reflexivity |].
  exact (proj2 (json_metadata_skipped_iff_unused "as_bbc_sb" "FreeSound" "fsd_final" Hin)
           eq_refl).
Defined.

(** ** Calls of the preparation steps, by their arguments *)

Section Calls_with_equations.
Context {FS : Type} `{Platform FS}.
Variable P : Call -> Prop.


Lemma only_calls_bind_lift {A B : Type} (r : Res A) (k : A -> M FS B) :
  (forall a, r = inr a -> only_calls P (k a)) -> only_calls P (bind (lift r) k).
Proof.
  intros Hk st. rewrite bind_lift. destruct r as [e | a].
  - exists []. rewrite app_nil_r. split; [reflexivity | constructor].
  - now apply Hk.
Qed.

Lemma only_calls_for_each_In {A : Type} (xs : list A) (body : A -> M FS unit) :
  (forall x, In x xs -> only_calls P (body x)) -> only_calls P (for_each xs body).
Proof.
  induction xs as [| x xs IH]; intros Hbody; [apply only_calls_ret |].
  apply only_calls_bind; [apply Hbody; now left | intros _].
  apply IH. intros y Hy. apply Hbody. now right.
Qed.

Lemma only_calls_check_sources
  (root : string) (hf_cache_dir revision : option string) (sources : list string) :
  only_calls P (check_sources root hf_cache_dir revision sources).
Proof.
  apply only_calls_silent. intros st.
  exact (proj1 (proj2 (check_sources_frame root hf_cache_dir revision sources st))).
Qed.

Lemma only_calls_fetch_snapshot
  (revision : option string) (cache_dir : string) (resume_dl force : bool)
  (patterns : list string) (verbose : Z) :
  (forall pb,
      P (SnapshotDownload REPO_ID "dataset" revision resume_dl (negb force) cache_dir
           None patterns pb)) ->
  only_calls P (fetch_snapshot revision cache_dir resume_dl force patterns verbose).
Proof.
  intros HP st. rewrite fetch_snapshot_run.
  eexists [_]. destruct (run_call _ (st_fs st)) as [fs' [e | path]];
    (split; [reflexivity | constructor; [apply HP | constructor]]).
Qed.

End Calls_with_equations.

(** Splits a program along its binds and branches, keeping what is known
    about the values that are bound and looped over. *)
Ltac calls_keeping :=
  repeat first
    [ match goal with
      | |- only_calls _ (if ?b then _ else _) => destruct b eqn:?
      end
    | apply only_calls_check_sources
    | apply only_calls_fetch_snapshot; intros ?
    | apply only_calls_for_each_In; intros ? ?
    | apply only_calls_bind_lift; intros ? ?
    | calls_step ].

Section Pipeline_calls.
Context {FS : Type} `{Platform FS}.




End Pipeline_calls.

(** X5: the completeness check touches nothing but the log: it makes no
    call, leaves the file system and the progress-bar switch as they are, and
    adds a log record (one, at level ERROR, for a source the subset uses)
    exactly when it returns false. *)
Theorem is_prepared_changes_only_the_log
  {FS : Type} `{Platform FS}
  (root : string) (hf_cache_dir revision : option string) (subset : string)
  (st : State FS) :
  match _is_prepared root hf_cache_dir revision subset st with
  | (st', inr false) =>
      exists source expected found,
        active subset source /\
        st' = logged st ERROR (invalid_count_msg source expected found)
  | (st', _) => st' = st
  end.
Proof.
  unfold _is_prepared.
  assert (Hsub : forall source,
             In source (List.filter (fun s => _use_source s subset) SOURCES) ->
             active subset source)
    by (intros source; apply active_filter).
  revert Hsub. generalize (List.filter (fun s => _use_source s subset) SOURCES).
  intros sources. induction sources as [| source rest IH]; intros Hsub.
  - reflexivity.
  - rewrite check_sources_cons.
    destruct (_get_audio_subset_dpath root hf_cache_dir revision source);
      [reflexivity |].
    destruct (os_listdir (st_fs st) s) as [| names]; [reflexivity |].
    destruct (Dict.get source EXPECTED_SIZES) as [expected |]; [| reflexivity].
    destruct (expected =? Z.of_nat (length names)).
    + apply IH. intros source' Hin. apply Hsub. now right.
    + exists source, expected, (length names). split; [| reflexivity].
      apply Hsub. now left.
Qed.

(** X6: the fetch block makes exactly one call, the snapshot download of
    the repository with [local_files_only = not force], run with the
    progress-bar switch as the caller left it; it logs nothing and returns
    or raises what the download returns or raises.  The switch is as before
    afterwards whenever [verbose] is positive, whenever the download raises,
    and whenever the bars were enabled. *)
Theorem fetch_snapshot_effects
  {FS : Type} `{Platform FS}
  (revision : option string) (cache_dir : string) (resume_dl force : bool)
  (patterns : list string) (verbose : Z) (st : State FS) :
  let c :=
    SnapshotDownload REPO_ID "dataset" revision resume_dl (negb force) cache_dir
      None patterns (st_pbars_disabled st) in
  let run := fetch_snapshot revision cache_dir resume_dl force patterns verbose st in
  st_calls (fst run) = st_calls st ++ [c] /\
  st_log (fst run) = st_log st /\
  st_fs (fst run) = fst (run_call c (st_fs st)) /\
  snd run = snd (run_call c (st_fs st)) /\
  (0 < verbose -> st_pbars_disabled (fst run) = st_pbars_disabled st) /\
  (forall e,
      snd (run_call c (st_fs st)) = inl e ->
      st_pbars_disabled (fst run) = st_pbars_disabled st) /\
  (st_pbars_disabled st = false -> st_pbars_disabled (fst run) = false).
Proof.
  intros c run. subst run. rewrite fetch_snapshot_run. fold c.
  destruct (run_call c (st_fs st)) as [fs' [e | path]]; simpl;
    repeat split; trivial.
  - intros Hv. apply Z.leb_gt in Hv. rewrite Hv. now rewrite andb_false_r.
  - intros e [=].
  - intros ->. reflexivity.
Qed.

Lemma fetch_snapshot_effects_witness :
  snd (run_call
         (SnapshotDownload REPO_ID "dataset" None true false "/cache" None [] true)
         (sim_empty (inl (HubError "offline"))))
  = inl (HubError "offline") /\
  snd (fetch_snapshot None "/cache" true true [] 0
         (start (sim_empty (inl (HubError "offline"))) true))
  = inl (HubError "offline") /\
  st_pbars_disabled
    (fst (fetch_snapshot None "/cache" true true [] 0
            (start (sim_empty (inl (HubError "offline"))) true)))
  = true.
Proof.
  pose proof (fetch_snapshot_effects None "/cache" true true [] 0
                (start (sim_empty (inl (HubError "offline"))) true)) as Hfetch.
  destruct Hfetch as (_ & _ & _ & Hres & _ & Hraise & _).
  split; [reflexivity |]. split; [exact Hres |].
  exact (Hraise (HubError "offline") eq_refl).
Defined.

(** X7: when nothing exists at the dataset root, the link step makes one
    call, the creation of the directory link from the root to the snapshot,
    logs nothing, and raises what that call raises. *)
Theorem link_snapshot_creates_missing_link
  {FS : Type} `{Platform FS} (snapshot wavcaps : string) (st : State FS) :
  osp_exists (st_fs st) wavcaps = false ->
  link_snapshot snapshot wavcaps st =
  (mkState (fst (run_call (Symlink snapshot wavcaps true) (st_fs st)))
     (st_pbars_disabled st) (st_log st)
     (st_calls st ++ [Symlink snapshot wavcaps true]),
   match snd (run_call (Symlink snapshot wavcaps true) (st_fs st)) with
   | inl e => inl e
   | inr _ => inr tt
   end).
Proof.
  intros Hexists. unfold link_snapshot. rewrite bind_ask, Hexists, bind_call.
  destruct (run_call _ (st_fs st)) as [fs' [e | out]]; reflexivity.
Qed.

Lemma link_snapshot_creates_missing_link_witness :
  osp_exists unlinked_root "./WavCaps" = false /\
  st_calls (fst (link_snapshot "/cache/snap" "./WavCaps" (start unlinked_root false)))
  = [Symlink "/cache/snap" "./WavCaps" true] /\
  snd (link_snapshot "/cache/snap" "./WavCaps" (start unlinked_root false)) = inr tt /\
  Sim.realpath
    (st_fs (fst (link_snapshot "/cache/snap" "./WavCaps" (start unlinked_root false))))
    "./WavCaps"
  = "/cache/snap".
Proof.
  assert (Hexists : osp_exists (st_fs (start unlinked_root false)) "./WavCaps" = false)
    by (vm_compute; reflexivity).
  split; [exact Hexists |].
  rewrite (link_snapshot_creates_missing_link "/cache/snap" "./WavCaps"
             (start unlinked_root false) Hexists).
  repeat split.
Defined.

(** X8: the merge tool is called for split sources only, and always as
    [<zip_path> -FF <source>.zip --out <source>_merged.zip] on the two paths
    in the archive directory of the source, with its output discarded unless
    [verbose >= 2]. *)
Theorem merge_tool_command
  {FS : Type} `{Platform FS}
  (root : string) (hf_cache_dir revision : option string)
  (verify_files : bool) (zip_path : string) (verbose : Z) (item : string * bool) :
  only_calls (merge_call root hf_cache_dir revision zip_path verbose item)
    (prepare_source root hf_cache_dir revision verify_files zip_path verbose item).
Proof.
  destruct item as [source is_splitted].
  unfold prepare_source, list_src_root, verify_extracted.
  destruct is_splitted; cbn [andb]; calls_keeping; simpl; trivial.
  split; [reflexivity |]. split; [reflexivity |].
  match goal with
  | E : Dict.item source _WAVCAPS_ARCHIVE_DNAMES = inr ?dname |- _ =>
      rewrite E; simpl; eexists _, _; repeat split
  end.
Qed.




Section Aborted_runs.
Context {FS : Type} `{Platform FS}.

Lemma is_prepared_true_run
  (root : string) (hf_cache_dir revision : option string) (subset : string)
  (st : State FS) :
  snd (_is_prepared root hf_cache_dir revision subset st) = inr true ->
  _is_prepared root hf_cache_dir revision subset st = (st, inr true).
Proof.
  unfold _is_prepared. intros Htrue.
  now apply check_sources_true, check_sources_true_inv.
Qed.

(** Every program built from the steps of the module only adds calls. *)
Lemma calls_grow {A : Type} (m : M FS A) (st : State FS) :
  only_calls (fun _ => True) m ->
  exists more, st_calls (fst (m st)) = st_calls st ++ more.
Proof. intros Hm. destruct (Hm st) as (more & Hcalls & _). now exists more. Qed.

End Aborted_runs.

(** X12: when the snapshot download raises, preparation raises the same
    exception at once: the download is the only call made (no link is
    touched, nothing is merged or extracted), and the progress-bar switch is
    as it was. *)
Theorem failed_fetch_aborts_preparation
  {FS : Type} `{Platform FS}
  (root subset : string) (revision hf_cache_dir : option string)
  (resume_dl force verify_files clean_archives : bool)
  (zip_path : string) (verbose : Z) (st : State FS) (fs' : FS) (e : exn) :
  let c :=
    SnapshotDownload REPO_ID "dataset" revision resume_dl (negb force)
      (default HUGGINGFACE_HUB_CACHE hf_cache_dir) None (ign_patterns subset)
      (st_pbars_disabled st) in
  let run :=
    _prepare_wavcaps_dataset root subset revision hf_cache_dir resume_dl force
      verify_files clean_archives zip_path verbose st in
  snd (_is_prepared root hf_cache_dir revision subset st) = inr true ->
  run_call c (st_fs st) = (fs', inl e) ->
  snd run = inl e /\
  st_calls (fst run) = st_calls st ++ [c] /\
  st_fs (fst run) = fs' /\
  st_pbars_disabled (fst run) = st_pbars_disabled st.
Proof.
  intros c run Hprepared Hrun. subst run.
  apply is_prepared_true_run in Hprepared.
  unfold _prepare_wavcaps_dataset. rewrite bind_run, Hprepared.
  change (negb true) with false. cbv iota.
  rewrite bind_run, debug_run, bind_run, debug_run, bind_run, fetch_snapshot_run.
  replace (match hf_cache_dir with
           | Some d => d
           | None => HUGGINGFACE_HUB_CACHE
           end) with (default HUGGINGFACE_HUB_CACHE hf_cache_dir)
    by (destruct hf_cache_dir; reflexivity).
  destruct (2 <=? verbose); simpl; fold c; rewrite Hrun; simpl; auto.
Qed.

Lemma failed_fetch_aborts_preparation_witness :
  snd (_is_prepared "." None None "sb" (start (Sim.with_dirs (sim_empty (inl (HubError "offline")))
         [ ("./WavCaps/Audio/SoundBible", repeat "x.flac" 1320) ]) false)) = inr true /\
  snd (_prepare_wavcaps_dataset "." "sb" None None true true false false "zip" 0
         (start (Sim.with_dirs (sim_empty (inl (HubError "offline")))
                   [ ("./WavCaps/Audio/SoundBible", repeat "x.flac" 1320) ]) false))
  = inl (HubError "offline") /\
  st_calls
    (fst (_prepare_wavcaps_dataset "." "sb" None None true true false false "zip" 0
            (start (Sim.with_dirs (sim_empty (inl (HubError "offline")))
                      [ ("./WavCaps/Audio/SoundBible", repeat "x.flac" 1320) ]) false)))
  = [ SnapshotDownload REPO_ID "dataset" None true false
        "/home/user/.cache/huggingface/hub" None (ign_patterns "sb") false ].
Proof.
  set (st := start (Sim.with_dirs (sim_empty (inl (HubError "offline")))
                      [ ("./WavCaps/Audio/SoundBible", repeat "x.flac" 1320) ]) false).
  assert (Hprepared : snd (_is_prepared "." None None "sb" st) = inr true)
    by (vm_compute; reflexivity).
  split; [exact Hprepared |].
  pose proof (failed_fetch_aborts_preparation "." "sb" None None true true false false
                "zip" 0 st (st_fs st) (HubError "offline") Hprepared eq_refl)
    as (Hres & Hcalls & _).
  split; [exact Hres | exact Hcalls].
Defined.

(** X13: for a split source whose merged archive is not on disk, the merge
    tool is the first call of the loop body; when it fails, its exception
    (the non-zero exit) is passed on as it is and nothing else is called: no
    directory is created and nothing is extracted. *)
Theorem merge_runs_first_and_its_failure_aborts
  {FS : Type} `{Platform FS}
  (root : string) (hf_cache_dir revision : option string)
  (verify_files : bool) (zip_path : string) (verbose : Z)
  (source main merged : string) (st : State FS) :
  let c := CheckCall [zip_path; "-FF"; main; "--out"; merged] (negb (2 <=? verbose)) in
  let run :=
    prepare_source root hf_cache_dir revision verify_files zip_path verbose
      (source, true) st in
  merged_archive_of root hf_cache_dir revision (source, false) = inr main ->
  merged_archive_of root hf_cache_dir revision (source, true) = inr merged ->
  osp_isfile (st_fs st) merged = false ->
  (exists more, st_calls (fst run) = st_calls st ++ c :: more) /\
  (forall fs' e,
      run_call c (st_fs st) = (fs', inl e) ->
      snd run = inl e /\ st_calls (fst run) = st_calls st ++ [c] /\ st_fs (fst run) = fs').
Proof.
  intros c run Hmain Hmerged Hfile. subst run.
  unfold merged_archive_of in Hmain, Hmerged.
  unfold prepare_source. rewrite bind_lift.
  destruct (Dict.item source _WAVCAPS_ARCHIVE_DNAMES) as [| dname];
    [discriminate Hmain |].
  simpl in Hmain, Hmerged. injection Hmain as Hmain. injection Hmerged as Hmerged.
  rewrite Hmain, Hmerged, bind_ask, Hfile.
  change (true && negb false) with true. cbv iota.
  rewrite bind_run, bind_run, debug_run, bind_run, debug_run, bind_call.
  fold c.
  lazymatch goal with
  | |- context [run_call c (st_fs ?s)] =>
      assert (Hst : st_fs s = st_fs st /\ st_calls s = st_calls st)
        by (destruct (2 <=? verbose); auto);
      destruct Hst as (Hfs & Hcalls); rewrite Hfs, Hcalls
  end.
  destruct (run_call c (st_fs st)) as [fs1 [e1 | out]].
  - split; [exists []; reflexivity |]. intros fs' e [= <- <-]. auto.
  - split; [| intros fs' e [=]].
    unfold ret at 1. cbv beta iota.
    lazymatch goal with
    | |- exists more, st_calls (fst (?prog ?s)) = _ =>
        destruct (calls_grow prog s) as (more & Hmore);
        [calls; exact I | exists more; rewrite Hmore; simpl; now rewrite <- app_assoc]
    end.
Qed.

Lemma merge_runs_first_and_its_failure_aborts_witness :
  merged_archive_of "." None None ("AudioSet_SL", true)
  = inr "./WavCaps/Zip_files/AudioSet_SL/AudioSet_SL_merged.zip" /\
  osp_isfile unlinked_root "./WavCaps/Zip_files/AudioSet_SL/AudioSet_SL_merged.zip" = false /\
  snd (prepare_source "." None None false "zip" 0 ("AudioSet_SL", true)
         (start unlinked_root false))
  = inl (CalledProcessError
           ["zip"; "-FF"; "./WavCaps/Zip_files/AudioSet_SL/AudioSet_SL.zip"; "--out";
            "./WavCaps/Zip_files/AudioSet_SL/AudioSet_SL_merged.zip"]) /\
  st_calls
    (fst (prepare_source "." None None false "zip" 0 ("AudioSet_SL", true)
            (start unlinked_root false)))
  = [ CheckCall
        ["zip"; "-FF"; "./WavCaps/Zip_files/AudioSet_SL/AudioSet_SL.zip"; "--out";
         "./WavCaps/Zip_files/AudioSet_SL/AudioSet_SL_merged.zip"] true ].
Proof.
  assert (Hmain : merged_archive_of "." None None ("AudioSet_SL", false)
                  = inr "./WavCaps/Zip_files/AudioSet_SL/AudioSet_SL.zip")
    by (vm_compute; reflexivity).
  assert (Hmerged : merged_archive_of "." None None ("AudioSet_SL", true)
                    = inr "./WavCaps/Zip_files/AudioSet_SL/AudioSet_SL_merged.zip")
    by (vm_compute; reflexivity).
  assert (Hfile : osp_isfile (st_fs (start unlinked_root false))
                    "./WavCaps/Zip_files/AudioSet_SL/AudioSet_SL_merged.zip" = false)
    by (vm_compute; reflexivity).
  split; [exact Hmerged |]. split; [exact Hfile |].
  pose proof (merge_runs_first_and_its_failure_aborts "." None None false "zip" 0
                "AudioSet_SL" _ _ (start unlinked_root false) Hmain Hmerged Hfile)
    as (_ & Hfail).
  destruct (Hfail unlinked_root
              (CalledProcessError
                 ["zip"; "-FF"; "./WavCaps/Zip_files/AudioSet_SL/AudioSet_SL.zip"; "--out";
                  "./WavCaps/Zip_files/AudioSet_SL/AudioSet_SL_merged.zip"])
              ltac:(vm_compute; reflexivity))
    as (Hres & Hcalls & _).
  split; [exact Hres | exact Hcalls].
Defined.

(** X14: when no merge is due (the source is not split, or its merged
    archive is on disk) and the flac entries of the archive do not lie in one
    subdirectory (none at all included), the loop body raises AssertionError
    right after creating the audio directory: nothing is extracted, moved or
    removed. *)
Theorem archive_layout_is_asserted
  {FS : Type} `{Platform FS}
  (root : string) (hf_cache_dir revision : option string)
  (verify_files : bool) (zip_path : string) (verbose : Z)
  (item : string * bool) (merged audio out : string) (names : list string)
  (st : State FS) (fs1 : FS) :
  let run :=
    prepare_source root hf_cache_dir revision verify_files zip_path verbose item st in
  merged_archive_of root hf_cache_dir revision item = inr merged ->
  _get_audio_subset_dpath root hf_cache_dir revision (fst item) = inr audio ->
  (snd item = true -> osp_isfile (st_fs st) merged = true) ->
  run_call (Makedirs audio true) (st_fs st) = (fs1, inr out) ->
  zip_namelist fs1 merged = inr names ->
  single_subdirectory names = false ->
  snd run = inl AssertionError /\
  st_calls (fst run) = st_calls st ++ [Makedirs audio true] /\
  st_fs (fst run) = fs1.
Proof.
  intros run Hmerged Haudio Hfile Hmk Hnames Hlayout. subst run.
  destruct item as [source is_splitted]. simpl in Haudio, Hfile.
  unfold merged_archive_of in Hmerged.
  unfold prepare_source. rewrite bind_lift.
  destruct (Dict.item source _WAVCAPS_ARCHIVE_DNAMES) as [| dname];
    [discriminate Hmerged |].
  simpl in Hmerged. injection Hmerged as Hmerged.
  rewrite Hmerged, bind_ask.
  assert (Hskip : is_splitted && negb (osp_isfile (st_fs st) merged) = false).
  { destruct is_splitted; [| reflexivity]. now rewrite Hfile. }
  rewrite Hskip, bind_ret, bind_lift, Haudio, bind_call, Hmk, bind_query.
  cbn [st_fs]. rewrite Hnames.
  unfold single_subdirectory in Hlayout. rewrite bind_assert.
  destruct (0 <? length _)%nat; [| now repeat split].
  simpl in Hlayout. rewrite bind_assert, Hlayout. now repeat split.
Qed.

Lemma archive_layout_is_asserted_witness :
  single_subdirectory ["readme.txt"] = false /\
  single_subdirectory ["a/x.flac"; "b/y.flac"] = false /\
  snd (prepare_source "." None None false "zip" 0 ("SoundBible", false)
         (start no_flac_root false))
  = inl AssertionError /\
  st_calls
    (fst (prepare_source "." None None false "zip" 0 ("SoundBible", false)
            (start no_flac_root false)))
  = [Makedirs "./WavCaps/Audio/SoundBible" true].
Proof.
  split; [reflexivity |]. split; [vm_compute; reflexivity |].
  pose proof (archive_layout_is_asserted "." None None false "zip" 0
                ("SoundBible", false)
                "./WavCaps/Zip_files/SoundBible/SoundBible.zip"
                "./WavCaps/Audio/SoundBible" "" ["readme.txt"]
                (start no_flac_root false) no_flac_root
                ltac:(vm_compute; reflexivity) ltac:(vm_compute; reflexivity)
                ltac:(discriminate) ltac:(vm_compute; reflexivity)
                ltac:(vm_compute; reflexivity) ltac:(reflexivity))
    as (Hres & Hcalls & _).
  split; [exact Hres | exact Hcalls].
Defined.

(** ** The contents of the loaded table *)

Section Lists.

Lemma res_map_Forall2 {A B : Type} (f : A -> Res B) (R : A -> B -> Prop)
  (xs : list A) (ys : list B) :
  (forall x y, f x = inr y -> R x y) -> res_map f xs = inr ys -> Forall2 R xs ys.
Proof.
  intros Hf. revert ys. induction xs as [| x xs IH]; intros ys Hr; simpl in Hr.
  - injection Hr as <-. constructor.
  - unfold res_bind in Hr. destruct (f x) as [| y] eqn:Ey; [discriminate |].
    destruct (res_map f xs) as [| ys']; [discriminate |].
    injection Hr as <-. constructor; [now apply Hf | now apply IH].
Qed.

Lemma Forall2_map_values {A B : Type} (g : A -> B) (R : A -> B -> Prop) (xs : list A) :
  (forall x, R x (g x)) -> Forall2 R xs (map g xs).
Proof. intros Hg. induction xs; simpl; constructor; auto. Qed.

Lemma combine_app_same {A B : Type} (xs xs' : list A) (ys ys' : list B) :
  length xs = length ys ->
  combine (xs ++ xs') (ys ++ ys') = combine xs ys ++ combine xs' ys'.
Proof.
  revert ys. induction xs as [| x xs IH]; intros [| y ys] Hlen;
    simpl in *; try discriminate; [reflexivity |].
  f_equal. apply IH. congruence.
Qed.

Lemma Forall2_same_length {A B : Type} (R : A -> B -> Prop) (xs : list A) (ys : list B) :
  Forall2 R xs ys -> length xs = length ys.
Proof. induction 1; simpl; congruence. Qed.

End Lists.

Section Column_contents.
Context {FS : Type} `{Platform FS}.

Lemma get_remove_other {V : Type} (k k' : string) (d : Dict.t V) :
  k <> k' -> Dict.get k (Dict.remove k' d) = Dict.get k d.
Proof.
  intros Hne. unfold Dict.remove.
  induction d as [| [k0 v0] d IH]; simpl; [reflexivity |].
  destruct (String.eqb_spec k' k0) as [<- | Hne0]; simpl.
  - destruct (String.eqb_spec k k') as [E | _]; [contradiction | exact IH].
  - now rewrite IH.
Qed.

Lemma get_column (k : string) (t : table) :
  In k (Dict.keys t) -> Dict.get k t = Some (column k t).
Proof.
  unfold column, Dict.keys.
  induction t as [| [k0 v0] t IH]; simpl; [contradiction |].
  destruct (String.eqb_spec k k0) as [-> | Hne]; [reflexivity |].
  intros [E | Hin]; [congruence | now apply IH].
Qed.

Lemma column_length_column (k : string) (t : table) :
  column_length k t = length (column k t).
Proof. reflexivity. Qed.

Lemma extend_column (k : string) (vs : list pyval) (d d' : table) :
  Dict.extend k vs d = inr d' ->
  forall k', column k' d' = column k' d ++ (if String.eqb k' k then vs else []).
Proof.
  unfold Dict.extend. destruct (Dict.get k d) as [old |] eqn:Hold; [| discriminate].
  intros [= <-] k'. unfold column. rewrite (get_set k k' _ old d Hold).
  destruct (String.eqb_spec k' k) as [-> | _].
  - now rewrite Hold.
  - now rewrite app_nil_r.
Qed.

Lemma add_column_column
  (source : string) (size : nat) (json_data raw_data raw' : table) (k : string) :
  add_column source size json_data raw_data k = inr raw' ->
  forall k',
    k' <> "audio" -> k' <> "file_name" ->
    column k' raw' =
    column k' raw_data ++ (if String.eqb k' k then source_column json_data size k else []).
Proof.
  unfold add_column, res_bind, source_column, Dict.mem, Dict.item.
  destruct (Dict.get k json_data) as [values |].
  { intros Hext k' _ _. exact (extend_column _ _ _ _ Hext k'). }
  destruct (Dict.get k _DEFAULT_VALUES) as [default_val |].
  { intros Hext k' _ _. exact (extend_column _ _ _ _ Hext k'). }
  destruct (PyStr.in_tuple k ["audio"; "file_name"]) eqn:Ein; [| discriminate].
  intros [= <-] k' Haudio Hfile. apply in_tuple_In in Ein.
  destruct (String.eqb_spec k' k) as [-> | _]; [| now rewrite app_nil_r].
  simpl in Ein. destruct Ein as [<- | [<- | []]]; congruence.
Qed.

Lemma add_columns_column
  (source : string) (size : nat) (json_data : table) (ks : list string)
  (raw_data raw' : table) :
  add_columns source size json_data raw_data ks = inr raw' ->
  forall k',
    k' <> "audio" -> k' <> "file_name" ->
    column k' raw' =
    column k' raw_data ++
    concat
      (map (fun k => if String.eqb k' k then source_column json_data size k else []) ks).
Proof.
  revert raw_data. induction ks as [| k ks IH]; intros raw_data Hadd k' Haudio Hfile;
    simpl in Hadd.
  - injection Hadd as <-. simpl. now rewrite app_nil_r.
  - unfold res_bind in Hadd.
    destruct (add_column source size json_data raw_data k) as [| raw1] eqn:E1;
      [discriminate |].
    rewrite (IH _ Hadd k' Haudio Hfile), (add_column_column _ _ _ _ _ _ E1 k' Haudio Hfile).
    simpl. now rewrite app_assoc.
Qed.

Lemma fname_rule_other (source : string) (id_ : pyval) :
  String.eqb source "AudioSet_SL" = false ->
  fname_built_from source id_ (VStr (py_str id_ +:+ ".flac")).
Proof. unfold fname_built_from. now intros ->. Qed.

Lemma add_fnames_rows (source : string) (json_data raw_data raw' : table) :
  add_fnames source json_data raw_data = inr raw' ->
  exists ids fnames,
    Dict.get "id" json_data = Some ids /\
    Forall2 (fname_built_from source) ids fnames /\
    forall k',
      column k' raw' =
      column k' raw_data ++ (if String.eqb k' "fname" then fnames else []).
Proof.
  assert (Hother :
    String.eqb source "AudioSet_SL" = false ->
    (let* ids := Dict.item "id" json_data in
     Dict.extend "fname" (map (fun id_ => VStr (py_str id_ +:+ ".flac")) ids)
       raw_data)%res = inr raw' ->
    exists ids fnames,
      Dict.get "id" json_data = Some ids /\
      Forall2 (fname_built_from source) ids fnames /\
      forall k',
        column k' raw' =
        column k' raw_data ++ (if String.eqb k' "fname" then fnames else [])).
  { intros Hsrc. unfold res_bind, Dict.item.
    destruct (Dict.get "id" json_data) as [ids |]; [| discriminate].
    intros Hext. exists ids, (map (fun id_ => VStr (py_str id_ +:+ ".flac")) ids).
    split; [reflexivity |]. split; [| exact (extend_column _ _ _ _ Hext)].
    apply Forall2_map_values. intros id_. now apply fname_rule_other. }
  unfold add_fnames.
  destruct (String.eqb source "AudioSet_SL") eqn:Eas.
  { unfold res_bind, Dict.item.
    destruct (Dict.get "id" json_data) as [ids |]; [| discriminate].
    destruct (res_map _ ids) as [| fnames] eqn:Efn; [discriminate |].
    intros Hext. exists ids, fnames.
    split; [reflexivity |]. split; [| exact (extend_column _ _ _ _ Hext)].
    eapply res_map_Forall2; [| exact Efn].
    intros id_ fname. unfold fname_built_from. rewrite Eas.
    destruct id_; try discriminate. intros [= <-]. now eexists. }
  destruct (String.eqb source "BBC_Sound_Effects"); [now apply Hother |].
  destruct (String.eqb source "FreeSound"); [now apply Hother |].
  destruct (String.eqb source "SoundBible"); [now apply Hother | discriminate].
Qed.

(** What one source adds to the columns that are kept. *)
Lemma add_source_columns (fs : FS) (raw_data raw' : table) (source path : string) :
  add_source fs raw_data (source, path) = inr raw' ->
  (forall k',
      In k' ["caption"; "duration"; "id"; "author"; "description"; "download_link";
             "href"; "tags"] ->
      column k' raw' = column k' raw_data ++ json_column fs path k') /\
  column "source" raw' =
  column "source" raw_data ++ repeat (VStr source) (record_count fs path) /\
  length (json_column fs path "id") = record_count fs path /\
  exists fnames,
    column "fname" raw' = column "fname" raw_data ++ fnames /\
    Forall2 (fname_built_from source) (json_column fs path "id") fnames.
Proof.
  unfold add_source, record_count, json_column, res_bind.
  destruct (_load_json fs path) as [| [json_data size]] eqn:Eload; [discriminate |].
  pose proof (load_json_columns _ _ _ _ Eload) as Hlen.
  destruct (add_fnames source _ raw_data) as [| raw1] eqn:E1; [discriminate |].
  destruct (add_fnames_rows _ _ _ _ E1) as (ids & fnames & Hids & Hrows & Hc1).
  destruct (add_columns source size _ raw1 _WAVCAPS_RAW_COLUMNS) as [| raw2] eqn:E2;
    [discriminate |].
  pose proof (add_columns_column _ _ _ _ _ _ E2) as Hc2.
  intros Hext. pose proof (extend_column _ _ _ _ Hext) as Hc3. cbn [snd].
  rewrite get_remove_other in Hids by discriminate.
  assert (Hsame : forall k, k <> "audio" ->
             source_column (Dict.remove "audio" json_data) size k =
             source_column json_data size k).
  { intros k Hk. unfold source_column. now rewrite get_remove_other. }
  split; [| split; [| split]].
  - intros k' Hin. rewrite Hc3. simpl in Hin.
    destruct Hin as [<- | [<- | [<- | [<- | [<- | [<- | [<- | [<- | []]]]]]]]];
      (rewrite Hc2 by discriminate); rewrite Hc1; simpl;
      rewrite !app_nil_r; (rewrite Hsame by discriminate); reflexivity.
  - rewrite Hc3, (Hc2 "source") by discriminate. rewrite Hc1. simpl.
    now rewrite !app_nil_r.
  - unfold source_column. rewrite Hids.
    apply (json_column_length json_data size "id"); [exact Hlen |].
    unfold Dict.item. now rewrite Hids.
  - exists fnames. split.
    + rewrite Hc3, (Hc2 "fname") by discriminate. rewrite Hc1. simpl.
      now rewrite !app_nil_r.
    + unfold source_column. now rewrite Hids.
Qed.

Lemma fname_rows_of_source (source : string) (ids fnames : list pyval) :
  Forall2 (fname_built_from source) ids fnames ->
  Forall2 fname_row (combine (repeat (VStr source) (length ids)) ids) fnames.
Proof.
  induction 1 as [| id_ fname ids fnames Hrow _ IH]; simpl; constructor; [| exact IH].
  exists source. now split.
Qed.

(** What the sources of a subset add, one after the other. *)
Lemma add_sources_columns (fs : FS) (entries : list (string * string))
  (raw_data raw' : table) :
  add_sources fs raw_data entries = inr raw' ->
  (forall k',
      In k' ["caption"; "duration"; "id"; "author"; "description"; "download_link";
             "href"; "tags"] ->
      column k' raw' =
      column k' raw_data ++ concat (map (fun entry => json_column fs (snd entry) k') entries)) /\
  column "source" raw' =
  column "source" raw_data ++
  concat (map (fun entry => repeat (VStr (fst entry)) (record_count fs (snd entry)))
            entries) /\
  exists fnames,
    column "fname" raw' = column "fname" raw_data ++ fnames /\
    Forall2 fname_row
      (combine
         (concat (map (fun entry => repeat (VStr (fst entry)) (record_count fs (snd entry)))
                    entries))
         (concat (map (fun entry => json_column fs (snd entry) "id") entries)))
      fnames.
Proof.
  revert raw_data. induction entries as [| entry rest IH]; intros raw_data Hadd;
    simpl in Hadd; [| destruct entry as [source path]].
  - injection Hadd as <-. simpl. split; [| split].
    + intros. now rewrite app_nil_r.
    + now rewrite app_nil_r.
    + exists []. split; [now rewrite app_nil_r | constructor].
  - unfold res_bind in Hadd.
    destruct (add_source fs raw_data (source, path)) as [| raw1] eqn:E1; [discriminate |].
    destruct (add_source_columns _ _ _ _ _ E1) as (Hk1 & Hs1 & Hlen & fn1 & Hf1 & Hr1).
    destruct (IH _ Hadd) as (Hk2 & Hs2 & fn2 & Hf2 & Hr2).
    split; [| split].
    + intros k' Hin. rewrite (Hk2 k' Hin), (Hk1 k' Hin). simpl. now rewrite app_assoc.
    + rewrite Hs2, Hs1. simpl. now rewrite app_assoc.
    + exists (fn1 ++ fn2). split; [rewrite Hf2, Hf1; now rewrite app_assoc |].
      simpl. rewrite combine_app_same by (now rewrite repeat_length).
      apply Forall2_app; [| exact Hr2].
      rewrite <- Hlen. now apply fname_rows_of_source.
Qed.

(** The table the loader returns, column by column. *)
Lemma loaded_table_shape
  (fs : FS) (root : string) (hf_cache_dir revision : option string)
  (subset : string) (t : table) :
  _load_wavcaps_dataset fs root hf_cache_dir revision subset = inr t ->
  let total := total_records fs root hf_cache_dir revision subset in
  let col := json_columns fs root hf_cache_dir revision subset in
  exists durations fnames,
    t = [ ("duration", durations); ("id", col "id"); ("author", col "author");
          ("description", col "description"); ("download_link", col "download_link");
          ("href", col "href"); ("tags", col "tags");
          ("source", source_names fs root hf_cache_dir revision subset);
          ("fname", fnames);
          ("captions", map (fun caption => VList [caption]) (col "caption")) ] /\
    res_map py_float (col "duration") = inr durations /\
    Forall2 fname_row
      (combine (source_names fs root hf_cache_dir revision subset) (col "id")) fnames /\
    (forall k,
        In k ["caption"; "duration"; "id"; "author"; "description"; "download_link";
              "href"; "tags"] ->
        length (col k) = total) /\
    length (source_names fs root hf_cache_dir revision subset) = total /\
    length fnames = total.
Proof.
  intros Hload total col. revert Hload.
  unfold _load_wavcaps_dataset. unfold res_bind at 1.
  destruct (add_sources fs _ _) as [| raw] eqn:Eadd; [discriminate |].
  pose proof (add_sources_length _ _ _ _ Eadd) as [Hkeys Hlen].
  destruct (add_sources_columns _ _ _ _ Eadd) as (Hcols & Hsrc & fnames & Hfn & Hrows).
  fold (source_names fs root hf_cache_dir revision subset) in Hsrc, Hrows.
  assert (Hcol : forall k,
             In k ["caption"; "duration"; "id"; "author"; "description";
                   "download_link"; "href"; "tags"] ->
             column k raw = col k).
  { intros k Hk. rewrite (Hcols k Hk). simpl in Hk.
    destruct Hk as [<- | [<- | [<- | [<- | [<- | [<- | [<- | [<- | []]]]]]]]];
      reflexivity. }
  assert (Hsources : column "source" raw = source_names fs root hf_cache_dir revision subset)
    by (rewrite Hsrc; reflexivity).
  assert (Hfnames : column "fname" raw = fnames) by (rewrite Hfn; reflexivity).
  fold (json_columns fs root hf_cache_dir revision subset "id") in Hrows.
  fold col in Hrows.
  assert (Htotal : forall k,
             In k ["caption"; "duration"; "id"; "author"; "description";
                   "download_link"; "href"; "tags"; "source"; "fname"] ->
             length (column k raw) = total).
  { intros k Hk. rewrite <- column_length_column, (Hlen k Hk). simpl in Hk.
    destruct Hk as [<- | [<- | [<- | [<- | [<- | [<- | [<- | [<- | [<- | [<- | []]]]]]]]]]];
      reflexivity. }
  clear Hlen Hcols Hsrc Hfn Eadd.
  unfold Dict.keys in Hkeys. simpl in Hkeys.
  do 12 (destruct raw as [| [? ?] raw]; [discriminate Hkeys |];
         simpl in Hkeys; injection Hkeys as -> Hkeys).
  destruct raw; [| discriminate Hkeys]. clear Hkeys.
  pose proof (Hcol "caption" ltac:(simpl; tauto)) as Ecaption.
  pose proof (Hcol "duration" ltac:(simpl; tauto)) as Eduration.
  pose proof (Hcol "id" ltac:(simpl; tauto)) as Eid.
  pose proof (Hcol "author" ltac:(simpl; tauto)) as Eauthor.
  pose proof (Hcol "description" ltac:(simpl; tauto)) as Edescription.
  pose proof (Hcol "download_link" ltac:(simpl; tauto)) as Elink.
  pose proof (Hcol "href" ltac:(simpl; tauto)) as Ehref.
  pose proof (Hcol "tags" ltac:(simpl; tauto)) as Etags.
  assert (Hlens : (forall k,
                      In k ["caption"; "duration"; "id"; "author"; "description";
                            "download_link"; "href"; "tags"] ->
                      length (col k) = total) /\
                  length (source_names fs root hf_cache_dir revision subset) = total /\
                  length fnames = total).
  { split; [| split].
    - intros k Hk. rewrite <- (Hcol k Hk). apply Htotal.
      simpl in Hk |- *. tauto.
    - rewrite <- Hsources. apply Htotal. simpl. tauto.
    - rewrite <- Hfnames. apply Htotal. simpl. tauto. }
  clear Hcol Htotal.
  unfold column in *. simpl in *. subst.
  unfold res_bind.
  destruct (res_map py_float (col "duration")) as [| durations] eqn:Efloat;
    [discriminate |].
  intros [= <-]. exists durations. eexists. split; [reflexivity |].
  split; [reflexivity |]. split; [exact Hrows | exact Hlens].
Qed.

Lemma add_sources_same_files (fs1 fs2 : FS) (entries : list (string * string)) :
  (forall source path, In (source, path) entries -> json_load fs1 path = json_load fs2 path) ->
  forall raw_data, add_sources fs1 raw_data entries = add_sources fs2 raw_data entries.
Proof.
  induction entries as [| entry rest IH]; intros Hsame raw_data; simpl;
    [reflexivity |].
  assert (Hentry : add_source fs1 raw_data entry = add_source fs2 raw_data entry).
  { destruct entry as [source path]. unfold add_source, _load_json.
    now rewrite (Hsame source path) by now left. }
  rewrite Hentry. unfold res_bind.
  destruct (add_source fs2 raw_data entry); [reflexivity |].
  apply IH. intros s p Hin. apply (Hsame s p). now right.
Qed.

End Column_contents.

(** X15: the table the loader returns has exactly ten columns (the raw
    columns "audio", "file_name" and "caption" are gone, "captions" is new),
    each named once.  The identifier and the five optional columns hold, for
    the sources of the subset in order, the values of the records of the JSON
    file, or the declared default once per record where the records of a
    source do not carry the key; the source column holds the name of each
    source once per record. *)
Theorem loaded_columns_follow_the_json_files
  {FS : Type} `{Platform FS}
  (fs : FS) (root : string) (hf_cache_dir revision : option string)
  (subset : string) (t : table) :
  _load_wavcaps_dataset fs root hf_cache_dir revision subset = inr t ->
  (forall k,
      In k (Dict.keys t) <->
      In k ["duration"; "id"; "author"; "description"; "download_link"; "href";
            "tags"; "source"; "fname"; "captions"]) /\
  List.NoDup (Dict.keys t) /\
  (forall k,
      In k ["id"; "author"; "description"; "download_link"; "href"; "tags"] ->
      Dict.get k t = Some (json_columns fs root hf_cache_dir revision subset k)) /\
  Dict.get "source" t = Some (source_names fs root hf_cache_dir revision subset).
Proof.
  intros Hload. apply loaded_table_shape in Hload.
  destruct Hload as (durations & fnames & -> & _).
  split; [reflexivity |]. split.
  - simpl.
    repeat (constructor;
            [simpl; intros Hin;
             repeat (destruct Hin as [Hin | Hin]; [discriminate Hin |]); exact Hin |]).
    constructor.
  - split; [| reflexivity]. intros k Hk. simpl in Hk.
    destruct Hk as [<- | [<- | [<- | [<- | [<- | [<- | []]]]]]]; reflexivity.
Qed.

Lemma loaded_columns_follow_the_json_files_witness :
  exists t,
    _load_wavcaps_dataset metadata_root "." None None "as_bbc_sb" = inr t /\
    Dict.get "description" t
    = Some [ VStr ""; VStr ""; VStr "Timber and wood, rip saw.";
             VStr "Large commercial airplane landing." ] /\
    Dict.get "tags" t = Some [VList []; VList []; VList []; VList []] /\
    Dict.get "source" t
    = Some [ VStr "AudioSet_SL"; VStr "AudioSet_SL"; VStr "BBC_Sound_Effects";
             VStr "SoundBible" ] /\
    Dict.get "caption" t = None.
Proof.
  destruct (_load_wavcaps_dataset metadata_root "." None None "as_bbc_sb")
    as [e | t] eqn:Eload; [vm_compute in Eload; discriminate Eload |].
  exists t. split; [reflexivity |].
  destruct (loaded_columns_follow_the_json_files metadata_root "." None None
              "as_bbc_sb" t Eload) as (Hkeys & _ & Hcols & Hsource).
  split; [rewrite (Hcols "description") by (simpl; tauto); vm_compute; reflexivity |].
  split; [rewrite (Hcols "tags") by (simpl; tauto); vm_compute; reflexivity |].
  split; [rewrite Hsource; vm_compute; reflexivity |].
  destruct (Dict.get "caption" t) as [column |] eqn:Ecaption; [| reflexivity].
  apply get_In in Ecaption. apply (in_map fst) in Ecaption.
  apply Hkeys in Ecaption. simpl in Ecaption.
  exfalso. intuition discriminate.
Defined.

(** X16: every entry of the "captions" column is a one-element list holding
    the caption of the record, in the order of the records, and the
    "duration" column is the conversion by [float] of the durations of the
    records (had one conversion raised, the loader would have raised). *)
Theorem captions_are_wrapped_and_durations_converted
  {FS : Type} `{Platform FS}
  (fs : FS) (root : string) (hf_cache_dir revision : option string)
  (subset : string) (t : table) :
  _load_wavcaps_dataset fs root hf_cache_dir revision subset = inr t ->
  Dict.get "captions" t =
  Some (map (fun caption => VList [caption])
          (json_columns fs root hf_cache_dir revision subset "caption")) /\
  exists durations,
    Dict.get "duration" t = Some durations /\
    res_map py_float (json_columns fs root hf_cache_dir revision subset "duration")
    = inr durations.
Proof.
  intros Hload. apply loaded_table_shape in Hload.
  destruct Hload as (durations & fnames & -> & Hfloat & _).
  split; [reflexivity |]. now exists durations.
Qed.

Lemma captions_are_wrapped_and_durations_converted_witness :
  exists t,
    _load_wavcaps_dataset metadata_root "." None None "as_bbc_sb" = inr t /\
    Dict.get "captions" t
    = Some [ VList [VStr "Rain falls on a roof."]; VList [VStr "A dog barks twice."];
             VList [VStr "Someone is sawing wood."];
             VList [VStr "An airplane is landing."] ] /\
    Dict.get "duration" t
    = Some [VFloat 100 (-1); VFloat 10 0; VFloat 1193 (-1); VFloat 1428 (-2)].
Proof.
  destruct (_load_wavcaps_dataset metadata_root "." None None "as_bbc_sb")
    as [e | t] eqn:Eload; [vm_compute in Eload; discriminate Eload |].
  exists t. split; [reflexivity |].
  destruct (captions_are_wrapped_and_durations_converted metadata_root "." None None
              "as_bbc_sb" t Eload) as (Hcaptions & durations & Hduration & Hfloat).
  split; [rewrite Hcaptions; vm_compute; reflexivity |].
  rewrite Hduration. vm_compute in Hfloat. now injection Hfloat as <-.
Defined.

(** X17: the rows of the loaded table are aligned: the "source", "id" and
    "fname" columns have the same length, and the file name of a row is
    built from the identifier of that row by the rule of the source of that
    row ([".wav"] replaced by [".flac"] for AudioSet_SL, [".flac"] appended
    for the other sources). *)
Theorem file_names_follow_their_rows
  {FS : Type} `{Platform FS}
  (fs : FS) (root : string) (hf_cache_dir revision : option string)
  (subset : string) (t : table) :
  _load_wavcaps_dataset fs root hf_cache_dir revision subset = inr t ->
  exists sources ids fnames,
    Dict.get "source" t = Some sources /\
    Dict.get "id" t = Some ids /\
    Dict.get "fname" t = Some fnames /\
    length sources = length ids /\
    length fnames = length ids /\
    Forall2 fname_row (combine sources ids) fnames.
Proof.
  intros Hload. apply loaded_table_shape in Hload.
  destruct Hload as (durations & fnames & -> & _ & Hrows & Hlen & Hsources & Hfnames).
  eexists _, _, _. repeat (split; [reflexivity |]).
  rewrite (Hlen "id") by (simpl; tauto). auto.
Qed.

Lemma file_names_follow_their_rows_witness :
  exists t,
    _load_wavcaps_dataset metadata_root "." None None "as_bbc_sb" = inr t /\
    Dict.get "fname" t
    = Some [ VStr "Y---1_cCGK4M.flac"; VStr "Y---2_BBVHAA.flac";
             VStr "NHU05104110.flac"; VStr "2219.flac" ] /\
    exists sources ids fnames,
      Dict.get "source" t = Some sources /\
      Dict.get "id" t = Some ids /\
      Dict.get "fname" t = Some fnames /\
      Forall2 fname_row (combine sources ids) fnames.
Proof.
  destruct (_load_wavcaps_dataset metadata_root "." None None "as_bbc_sb")
    as [e | t] eqn:Eload; [vm_compute in Eload; discriminate Eload |].
  exists t. split; [reflexivity |].
  split; [vm_compute in Eload; injection Eload as <-; reflexivity |].
  destruct (file_names_follow_their_rows metadata_root "." None None "as_bbc_sb" t Eload)
    as (sources & ids & fnames & Hs & Hi & Hf & _ & _ & Hrows).
  exists sources, ids, fnames.
  split; [exact Hs |]. split; [exact Hi |]. split; [exact Hf | exact Hrows].
Defined.

(** X18: the loader reads the JSON files of the sources the subset uses and
    nothing else: two file systems on which these files parse alike give the
    same result, table or exception, whatever else differs between them. *)
Theorem loader_reads_used_metadata_only
  {FS : Type} `{Platform FS}
  (fs1 fs2 : FS) (root : string) (hf_cache_dir revision : option string)
  (subset : string) :
  (forall source path,
      In (source, path) (json_paths_of root hf_cache_dir revision subset) ->
      json_load fs1 path = json_load fs2 path) ->
  _load_wavcaps_dataset fs1 root hf_cache_dir revision subset =
  _load_wavcaps_dataset fs2 root hf_cache_dir revision subset.
Proof.
  intros Hsame. unfold _load_wavcaps_dataset.
  now rewrite (add_sources_same_files fs1 fs2 _ Hsame).
Qed.

Lemma loader_reads_used_metadata_only_witness :
  json_load metadata_root "./WavCaps/json_files/AudioSet_SL/as_final.json"
  <> json_load soundbible_metadata_root "./WavCaps/json_files/AudioSet_SL/as_final.json" /\
  _load_wavcaps_dataset metadata_root "." None None "sb" =
  _load_wavcaps_dataset soundbible_metadata_root "." None None "sb".
Proof.
  split; [vm_compute; discriminate |].
  apply (loader_reads_used_metadata_only metadata_root soundbible_metadata_root).
  intros source path Hin. vm_compute in Hin.
  destruct Hin as [[= <- <-] | []]. vm_compute. reflexivity.
Defined.

Section Loader_errors.
Context {FS : Type} `{Platform FS}.

Lemma first_json_path
  (root : string) (hf_cache_dir revision : option string) (subset : string)
  (source path : string) (rest : list (string * string)) :
  json_paths_of root hf_cache_dir revision subset = (source, path) :: rest ->
  In source SOURCES.
Proof.
  intros Hpaths.
  assert (Hin : In (source, path) (json_paths_of root hf_cache_dir revision subset))
    by (rewrite Hpaths; now left).
  unfold json_paths_of in Hin. apply filter_In in Hin. destruct Hin as [Hin _].
  simpl in Hin.
  destruct Hin as [[= <- _] | [[= <- _] | [[= <- _] | [[= <- _] | []]]]]; simpl; tauto.
Qed.

End Loader_errors.

(** X19: the identifier and the duration are mandatory.  When the records
    of the first used source carry no "id", the loader raises KeyError("id");
    when they carry string identifiers and captions but no "duration", it
    raises RuntimeError naming the column and the source. *)
Theorem missing_mandatory_column_is_an_error
  {FS : Type} `{Platform FS}
  (fs : FS) (root : string) (hf_cache_dir revision : option string)
  (subset source path : string) (rest : list (string * string))
  (json_data : table) (size : nat) :
  json_paths_of root hf_cache_dir revision subset = (source, path) :: rest ->
  _load_json fs path = inr (json_data, size) ->
  (Dict.mem "id" json_data = false ->
   _load_wavcaps_dataset fs root hf_cache_dir revision subset = inl (KeyError "id")) /\
  (forall ids,
      Dict.get "id" json_data = Some ids ->
      Forall (fun id_ => exists s, id_ = VStr s) ids ->
      Dict.mem "caption" json_data = true ->
      Dict.mem "duration" json_data = false ->
      _load_wavcaps_dataset fs root hf_cache_dir revision subset =
      inl (RuntimeError
             ("Invalid column name duration. (with source=" +:+ source +:+ ")"))).
Proof.
  intros Hpaths Hload.
  pose proof (first_json_path _ _ _ _ _ _ _ Hpaths) as Hsource.
  unfold _load_wavcaps_dataset. rewrite Hpaths.
  cbn [add_sources]. unfold add_source. rewrite Hload.
  cbn [res_bind].
  assert (Hget : forall k, k <> "audio" ->
             Dict.get k (Dict.remove "audio" json_data) = Dict.get k json_data)
    by (intros k Hk; now apply get_remove_other).
  split.
  - unfold Dict.mem. intros Hid.
    destruct (Dict.get "id" json_data) as [ids |] eqn:Eid; [discriminate Hid |].
    unfold add_fnames, Dict.item. rewrite Hget, Eid by discriminate.
    simpl in Hsource.
    destruct Hsource as [<- | [<- | [<- | [<- | []]]]]; reflexivity.
  - intros ids Eid Hstr Hcaption Hduration. unfold Dict.mem in Hcaption, Hduration.
    destruct (Dict.get "caption" json_data) as [captions |] eqn:Ecaption;
      [| discriminate Hcaption].
    destruct (Dict.get "duration" json_data) eqn:Eduration; [discriminate Hduration |].
    assert (Hfnames : exists fnames,
               add_fnames source (Dict.remove "audio" json_data)
                 (Dict.from_keys (fun _ => []) (_WAVCAPS_RAW_COLUMNS ++ ["source"; "fname"]))
               = Dict.extend "fname" fnames
                   (Dict.from_keys (fun _ => [])
                      (_WAVCAPS_RAW_COLUMNS ++ ["source"; "fname"]))).
    { unfold add_fnames, Dict.item. rewrite Hget, Eid by discriminate.
      simpl in Hsource.
      destruct Hsource as [<- | [<- | [<- | [<- | []]]]]; cbn [String.eqb Ascii.eqb Bool.eqb res_bind];
        try (eexists; reflexivity).
      assert (Hmap : exists fnames,
                 res_map
                   (fun id_ =>
                      match id_ with
                      | VStr s => inr (VStr (PyStr.replace ".wav" ".flac" s))
                      | _ => inl (AttributeError "object has no attribute 'replace'")
                      end) ids = inr fnames).
      { clear Eid. induction Hstr as [| id_ ids [s ->] _ [fnames IH]].
        - now exists [].
        - exists (VStr (PyStr.replace ".wav" ".flac" s) :: fnames).
          cbn [res_map res_bind]. now rewrite IH. }
      destruct Hmap as [fnames ->]. now exists fnames. }
    destruct Hfnames as [fnames ->].
    unfold _WAVCAPS_RAW_COLUMNS.
    cbn [app Dict.from_keys fold_left Dict.set String.eqb Ascii.eqb Bool.eqb
         Dict.extend Dict.get res_bind add_columns].
    unfold add_column at 1, Dict.mem, Dict.item.
    rewrite Hget, Ecaption by discriminate.
    cbn [Dict.extend Dict.get Dict.set String.eqb Ascii.eqb Bool.eqb res_bind].
    unfold add_column at 1, Dict.mem, Dict.item.
    rewrite Hget, Eduration by discriminate.
    reflexivity.
Qed.

Lemma missing_mandatory_column_is_an_error_witness :
  json_paths_of "." None None "sb"
  = [("SoundBible", "./WavCaps/json_files/SoundBible/sb_final.json")] /\
  _load_wavcaps_dataset no_duration_root "." None None "sb"
  = inl (RuntimeError "Invalid column name duration. (with source=SoundBible)").
Proof.
  assert (Hpaths : json_paths_of "." None None "sb"
                   = [("SoundBible", "./WavCaps/json_files/SoundBible/sb_final.json")])
    by (vm_compute; reflexivity).
  split; [exact Hpaths |].
  assert (Hload : _load_json no_duration_root "./WavCaps/json_files/SoundBible/sb_final.json"
                  = inr ([ ("id", [VStr "2219"]);
                           ("caption", [VStr "An airplane is landing."]) ], 1%nat))
    by (vm_compute; reflexivity).
  refine (proj2 (missing_mandatory_column_is_an_error no_duration_root "." None None
                   "sb" "SoundBible" _ [] _ _ Hpaths Hload)
            [VStr "2219"] eq_refl _ eq_refl eq_refl).
  constructor; [now eexists | constructor].
Defined.

(** ** The table built by the constructor *)

Section Constructor.
Context {FS : Type} `{Platform FS}.

Lemma skipn_nth_error {A : Type} (l : list A) (a : nat) (x : A) :
  nth_error l a = Some x -> skipn a l = x :: skipn (S a) l.
Proof.
  revert a. induction l as [| y l IH]; intros [| a]; simpl; try discriminate.
  - intros [= ->]. reflexivity.
  - intros Hn. exact (IH a Hn).
Qed.

Lemma res_map_cons_inv {A B : Type} (f : A -> Res B) (x : A) (xs : list A)
  (ys : list B) :
  res_map f (x :: xs) = inr ys ->
  exists y ys', f x = inr y /\ res_map f xs = inr ys' /\ ys = y :: ys'.
Proof.
  simpl. unfold res_bind. destruct (f x) as [| y]; [discriminate |].
  destruct (res_map f xs) as [| ys']; [discriminate |].
  intros [= <-]. now exists y, ys'.
Qed.

(** Lines 182-190: the path of each row, from the source and the file name
    of the row. *)
Lemma fpaths_rows
  (root : string) (hf_cache_dir revision : option string)
  (f : nat * pyval -> Res pyval) (sources fnames : list pyval) (a : nat)
  (fpaths : list pyval) :
  (forall i fname,
      f (i, fname) =
      (let* source :=
         match nth_error sources i with
         | Some (VStr source) => inr source
         | Some other => inl (KeyError (py_str other))
         | None => inl IndexError
         end in
       let* dpath := _get_audio_subset_dpath root hf_cache_dir revision source in
       match fname with
       | VStr fname => inr (VStr (osp.join dpath fname))
       | _ => inl (TypeError "expected str, bytes or os.PathLike object")
       end)%res) ->
  res_map f (combine (seq a (length fnames)) fnames) = inr fpaths ->
  Forall2 (fpath_row root hf_cache_dir revision) (combine (skipn a sources) fnames) fpaths.
Proof.
  intros Hf. revert a fpaths.
  induction fnames as [| fname fnames IH]; intros a fpaths Hmap.
  - simpl in Hmap. injection Hmap as <-. rewrite combine_nil. constructor.
  - cbn [length seq combine] in Hmap.
    apply res_map_cons_inv in Hmap.
    destruct Hmap as (fpath & rest & Hhead & Hrest & ->).
    rewrite Hf in Hhead. unfold res_bind in Hhead.
    destruct (nth_error sources a) as [[| | | | source | |] |] eqn:En;
      try discriminate Hhead.
    destruct (_get_audio_subset_dpath root hf_cache_dir revision source)
      as [| dpath] eqn:Edpath; [discriminate Hhead |].
    destruct fname as [| | | | fname | |]; try discriminate Hhead.
    injection Hhead as <-.
    rewrite (skipn_nth_error _ _ _ En). cbn [combine].
    constructor; [| now apply IH].
    exists source, fname, dpath. auto.
Qed.

(** The table handed to the base class: the loaded table followed by the
    four derived columns. *)
Lemma init_table_shape
  (root subset : string) (download : bool)
  (hf_cache_dir revision : option string) (verbose : Z) (st : State FS) (t : table) :
  let run := WavCaps_init root subset download hf_cache_dir revision verbose st in
  let total := total_records (st_fs (fst run)) root hf_cache_dir revision subset in
  snd run = inr t ->
  (download = false -> fst run = st) /\
  exists loaded sources fnames fpaths,
    _load_wavcaps_dataset (st_fs (fst run)) root hf_cache_dir revision subset
    = inr loaded /\
    columns_have_length total loaded /\
    Dict.get "source" loaded = Some sources /\
    Dict.get "fname" loaded = Some fnames /\
    Dict.get "dataset" loaded = None /\
    Dict.get "subset" loaded = None /\
    Dict.get "fpath" loaded = None /\
    Dict.get "index" loaded = None /\
    length fpaths = total /\
    Forall2 (fpath_row root hf_cache_dir revision) (combine sources fnames) fpaths /\
    t = loaded ++
        [ ("dataset", repeat (VStr NAME) total);
          ("subset", repeat (VStr subset) total);
          ("fpath", fpaths);
          ("index", map (fun i => VInt (Z.of_nat i)) (seq 0 total)) ].
Proof.
  intros run total Hrun. subst total.
  assert (Erun : run = WavCaps_init root subset download hf_cache_dir revision verbose st)
    by reflexivity.
  clearbody run. unfold WavCaps_init in Erun. rewrite bind_run in Erun.
  destruct (when download _ st) as [st1 [e | []]] eqn:Eprep;
    [subst run; discriminate Hrun |].
  assert (Hstate : download = false -> st1 = st).
  { intros ->. simpl in Eprep. unfold ret in Eprep. congruence. }
  rewrite bind_query in Erun.
  destruct (_load_wavcaps_dataset (st_fs st1) root hf_cache_dir revision subset)
    as [| loaded] eqn:Eload; [subst run; discriminate Hrun |].
  destruct (loaded_table_shape _ _ _ _ _ _ Eload)
    as (durations & fnames & Hshape & Hfloat & _ & Hlen & Hlsources & Hlfnames).
  apply res_map_length in Hfloat.
  rewrite (Hlen "duration") in Hfloat by (simpl; tauto).
  pose proof (Hlen "id" ltac:(simpl; tauto)) as Hid.
  pose proof (Hlen "author" ltac:(simpl; tauto)) as Hauthor.
  pose proof (Hlen "description" ltac:(simpl; tauto)) as Hdescription.
  pose proof (Hlen "download_link" ltac:(simpl; tauto)) as Hlink.
  pose proof (Hlen "href" ltac:(simpl; tauto)) as Hhref.
  pose proof (Hlen "tags" ltac:(simpl; tauto)) as Htags.
  pose proof (Hlen "caption" ltac:(simpl; tauto)) as Hcaption.
  clear Hlen Eprep.
  remember (total_records (st_fs st1) root hf_cache_dir revision subset)
    as total eqn:Htotal.
  remember (source_names (st_fs st1) root hf_cache_dir revision subset) as sources.
  remember (json_columns (st_fs st1) root hf_cache_dir revision subset "id") as c_id.
  remember (json_columns (st_fs st1) root hf_cache_dir revision subset "author")
    as c_author.
  remember (json_columns (st_fs st1) root hf_cache_dir revision subset "description")
    as c_description.
  remember (json_columns (st_fs st1) root hf_cache_dir revision subset "download_link")
    as c_link.
  remember (json_columns (st_fs st1) root hf_cache_dir revision subset "href") as c_href.
  remember (json_columns (st_fs st1) root hf_cache_dir revision subset "tags") as c_tags.
  remember (json_columns (st_fs st1) root hf_cache_dir revision subset "caption")
    as c_caption.
  clear Heqsources Heqc_id Heqc_author Heqc_description Heqc_link Heqc_href Heqc_tags
    Heqc_caption.
  rewrite Hshape in Erun. simpl in Erun.
  rewrite bind_lift in Erun. cbv beta iota in Erun. rewrite Hfloat in Erun.
  lazymatch type of Erun with
  | context [Dict.item "fname" ?d] =>
      assert (Hitem : Dict.item "fname" d = inr fnames) by reflexivity;
      rewrite Hitem in Erun; clear Hitem
  end.
  rewrite bind_lift in Erun. cbv beta iota in Erun.
  rewrite bind_lift in Erun.
  lazymatch type of Erun with
  | context [res_map ?f ?l] =>
      destruct (res_map f l) as [| fpaths] eqn:Efpaths
  end; [subst run; discriminate Hrun |].
  unfold ret in Erun.
  pose proof (res_map_length _ _ _ Efpaths) as Hfp.
  rewrite length_combine, length_seq, Nat.min_id, Hlfnames in Hfp.
  apply (fpaths_rows root hf_cache_dir revision _ sources fnames 0) in Efpaths;
    [| intros i fname; reflexivity].
  subst run. cbn [fst snd] in Hrun |- *. injection Hrun as <-.
  rewrite <- Htotal, Eload.
  split; [exact Hstate |].
  exists loaded, sources, fnames, fpaths. subst loaded.
  split; [reflexivity |]. split.
  { unfold columns_have_length. repeat constructor; simpl; rewrite ?length_map; assumption. }
  repeat (split; [reflexivity |]).
  split; [exact Hfp |]. split; [exact Efpaths | reflexivity].
Qed.

End Constructor.

(** X20: whenever the constructor gets as far as the base class, the table
    it hands over is the loaded table, unchanged, followed by four derived
    columns of the same length as all the others (the sum of the record
    counts): "dataset" holds the name "wavcaps" and "subset" the subset on
    every row, "index" counts the rows from 0.  Without [download] the
    constructor makes no call, logs nothing and leaves every state as it
    is. *)
Theorem init_adds_the_derived_columns
  {FS : Type} `{Platform FS}
  (root subset : string) (download : bool)
  (hf_cache_dir revision : option string) (verbose : Z) (st : State FS) (t : table) :
  let run := WavCaps_init root subset download hf_cache_dir revision verbose st in
  let total := total_records (st_fs (fst run)) root hf_cache_dir revision subset in
  snd run = inr t ->
  (download = false -> fst run = st) /\
  (exists loaded,
      _load_wavcaps_dataset (st_fs (fst run)) root hf_cache_dir revision subset
      = inr loaded /\
      forall k column, Dict.get k loaded = Some column -> Dict.get k t = Some column) /\
  columns_have_length total t /\
  Dict.get "dataset" t = Some (repeat (VStr NAME) total) /\
  Dict.get "subset" t = Some (repeat (VStr subset) total) /\
  Dict.get "index" t = Some (map (fun i => VInt (Z.of_nat i)) (seq 0 total)).
Proof.
  intros run total Hrun.
  destruct (init_table_shape root subset download hf_cache_dir revision verbose st t Hrun)
    as (Hstate & loaded & sources & fnames & fpaths & Hload & Hlen & _ & _
        & Hdataset & Hsubset & Hfpath & Hindex & Hfp & _ & ->).
  fold run in Hload, Hlen, Hfp, Hstate. fold total in Hlen, Hfp.
  assert (Hget : forall k (more : table),
             Dict.get k (loaded ++ more) =
             match Dict.get k loaded with
             | Some column => Some column
             | None => Dict.get k more
             end).
  { intros k more. clear. induction loaded as [| [k0 v0] loaded IH]; simpl;
      [reflexivity |].
    destruct (String.eqb k k0); [reflexivity | exact IH]. }
  split; [exact Hstate |]. split; [| split; [| split; [| split]]].
  - exists loaded. split; [exact Hload |]. intros k column Hk.
    now rewrite Hget, Hk.
  - unfold columns_have_length. apply Forall_app. split; [exact Hlen |].
    repeat constructor; simpl;
      rewrite ?repeat_length, ?length_map, ?length_seq; auto.
  - rewrite Hget, Hdataset. reflexivity.
  - rewrite Hget, Hsubset. reflexivity.
  - rewrite Hget, Hindex. reflexivity.
Qed.

Lemma init_adds_the_derived_columns_witness :
  exists t,
    snd (WavCaps_init "." "as_bbc_sb" false None None 1 (start metadata_root false))
    = inr t /\
    fst (WavCaps_init "." "as_bbc_sb" false None None 1 (start metadata_root false))
    = start metadata_root false /\
    Dict.get "index" t = Some [VInt 0; VInt 1; VInt 2; VInt 3] /\
    Dict.get "dataset" t
    = Some [VStr "wavcaps"; VStr "wavcaps"; VStr "wavcaps"; VStr "wavcaps"].
Proof.
  destruct (snd (WavCaps_init "." "as_bbc_sb" false None None 1
                   (start metadata_root false)))
    as [e | t] eqn:Erun; [vm_compute in Erun; discriminate Erun |].
  exists t. split; [reflexivity |].
  destruct (init_adds_the_derived_columns "." "as_bbc_sb" false None None 1
              (start metadata_root false) t Erun)
    as (Hstate & _ & _ & Hdataset & _ & Hindex).
  split; [exact (Hstate eq_refl) |].
  split; [rewrite Hindex | rewrite Hdataset]; vm_compute; reflexivity.
Defined.


